(** * awsc: the SSO login workflow of [internal/aws] (SSOManager)

    A shallow embedding of [ListAccounts], [ListRoles], [GetRoleCredentials],
    [RunLogin] and [handleAccountRoleSelection], and the properties of the
    credential-resolution subsystem that they decide.

    Conventions of the embedding.
    - A Go [string] is a [string] of bytes; [<] on Go strings is the bytewise
      lexicographic order, here [String.ltb].
    - A Go [error] is the text of its [Error()] method; [nil] is [None].
      [fmt.Errorf("...: %v", err)] is string concatenation.
    - The SDK's [*string] fields of [types.AccountInfo] and [types.RoleInfo]
      are always set (the data model has them as plain strings), so [*p] is
      the string itself.
    - Everything outside the package (the SSO client, viper, the credentials
      manager, the config package, the [ui] selector, [os], standard output)
      is an [Event]; a run is taken against an arbitrary handler of the
      events and records the calls it makes, with their answers. *)

From Stdlib Require Import String Ascii List ZArith Lia Bool Arith.
From Stdlib Require Import Permutation Sorted.
Import ListNotations.
Open Scope string_scope.

Set Implicit Arguments.

(** ** Strings *)

Definition error := string.

(** The line feed written ["\n"] in the Go source. *)
Definition nl : string := String (ascii_of_nat 10) EmptyString.

(** The check mark of the two ["✓ Selected: %s\n"] messages (UTF-8 e2 9c 93). *)
Definition check_mark : string :=
  String (ascii_of_nat 226) (String (ascii_of_nat 156)
    (String (ascii_of_nat 147) EmptyString)).

(** ** The SDK's data (package [sso/types]) *)

Record AccountInfo := {
  AccountId : string;
  AccountName : string;
  EmailAddress : string
}.

Record RoleInfo := {
  RoleAccountId : string;
  RoleName : string
}.

Record RoleCredentials := {
  AccessKeyId : string;
  SecretAccessKey : string;
  SessionToken : string;
  Expiration : Z
}.

(** A call of the SDK or of a collaborator that returns [(value, err)]:
    the value is only read when [err == nil]. *)
Inductive result (A : Type) : Type :=
| Ok (a : A)
| Err (e : error).
Arguments Err {A} e.

(** One page of [sso.ListAccountsOutput] / [sso.ListAccountRolesOutput]. *)
Record ListAccountsOutput := {
  AccountList : list AccountInfo;
  AccountsNextToken : option string
}.

Record ListAccountRolesOutput := {
  RoleList : list RoleInfo;
  RolesNextToken : option string
}.

(** ** The order of [sort.Slice]'s comparator: [*a.Name < *b.Name] *)

Definition lessAccount (a b : AccountInfo) : bool :=
  String.ltb (AccountName a) (AccountName b).

Definition lessRole (a b : RoleInfo) : bool :=
  String.ltb (RoleName a) (RoleName b).

(** What [sort.Slice] asks of [less]: a strict weak order, given here by
    asymmetry and negative transitivity. *)
Record StrictWeakOrder (A : Type) (less : A -> A -> bool) : Prop := {
  swo_asym : forall x y, less x y = true -> less y x = false;
  swo_negtrans : forall x y z,
      less y x = false -> less z y = false -> less z x = false
}.

(** [l] is in ascending order for [less]: no element is less than an
    earlier one. *)
Definition ascending (A : Type) (less : A -> A -> bool) (l : list A) : Prop :=
  StronglySorted (fun x y => less y x = false) l.

(** The documented contract of [sort.Slice]: the slice is rearranged (a
    permutation) into ascending order for [less]. The package states that
    the sort is not guaranteed to be stable, and nothing more is assumed of
    it here. *)
Definition SliceSorter : Type :=
  forall A : Type, (A -> A -> bool) -> list A -> list A.

Definition sort_Slice_contract (sort_Slice : SliceSorter) : Prop :=
  forall (A : Type) (less : A -> A -> bool) (l : list A),
    StrictWeakOrder less ->
    Permutation l (sort_Slice A less l) /\ ascending less (sort_Slice A less l).


(** *** Two sorters that meet the contract *)

(** Insertion sort as package [sort] writes it: each element in turn moves
    left while it is less than its left neighbour. [insert_left] works on
    the already sorted prefix held in reverse. *)
Fixpoint insert_left (A : Type) (less : A -> A -> bool) (x : A)
    (rev_prefix : list A) : list A :=
  match rev_prefix with
  | [] => [x]
  | y :: r => if less x y then y :: insert_left less x r else x :: y :: r
  end.

Fixpoint insertion_loop (A : Type) (less : A -> A -> bool)
    (rev_prefix rest : list A) : list A :=
  match rest with
  | [] => rev rev_prefix
  | x :: rest' => insertion_loop less (insert_left less x rev_prefix) rest'
  end.

Definition insertionSort : SliceSorter :=
  fun A less l => insertion_loop less [] l.


(** ** [strings.EqualFold] on ASCII text

    The workflow is stated for any case-insensitive matcher; this is the
    ASCII path of [strings.EqualFold], used to run the examples. *)
Definition fold_byte_eq (sr tr : ascii) : bool :=
  let s := nat_of_ascii sr in
  let t := nat_of_ascii tr in
  if Nat.eqb t s then true
  else
    let lo := Nat.min s t in
    let hi := Nat.max s t in
    (65 <=? lo)%nat && (lo <=? 90)%nat && Nat.eqb hi (lo + 97 - 65).

Fixpoint EqualFold_ascii (s t : string) : bool :=
  match s, t with
  | EmptyString, EmptyString => true
  | String sr s', String tr t' => fold_byte_eq sr tr && EqualFold_ascii s' t'
  | _, _ => false
  end.

(** ** The outside world: events, runs and their traces *)

Inductive Event : Type -> Type :=
| viper_GetString (key : string) : Event string
| NewCredentialsManager : Event (result unit)
| GetCachedToken : Event (result string)
| Authenticate (startURL ssoRegion : string) : Event (option error)
| client_ListAccounts (accessToken : string) (nextToken : option string)
  : Event (result ListAccountsOutput)
| client_ListAccountRoles (accessToken accountId : string)
    (nextToken : option string)
  : Event (result ListAccountRolesOutput)
| client_GetRoleCredentials (accessToken accountId roleName : string)
  : Event (result (option RoleCredentials))
| SaveAccountCache (accounts : list AccountInfo) : Event (option error)
| RunSelector (title : string) (options : list string) : Event (result Z)
| WriteProfile (accountName accountId roleName : string)
    (creds : option RoleCredentials)
  : Event (result string)
| Getppid : Event Z
| SaveSession (ppid : Z) (profileName accountId accountName roleName : string)
  : Event (option error)
| CleanupStaleSessions : Event (option error)
| Printf (text : string) : Event unit.

(** A call that was made, with the answer it got. *)
Inductive Entry : Type :=
| Called (X : Type) (e : Event X) (answer : X).

Inductive Outcome (A : Type) : Type :=
| Done (a : A)               (* the function returned [a] *)
| Panicked (msg : string)    (* a run-time panic *)
| OutOfFuel.                 (* a [for] loop is still running *)
Arguments Panicked {A} msg.
Arguments OutOfFuel {A}.

Record Run (W A : Type) : Type := {
  outcome : Outcome A;
  final : W;
  trace : list Entry
}.

(** *** What a trace shows *)

Definition is_RunSelector (c : Entry) : bool :=
  match c with
  | Called (RunSelector _ _) _ => true
  | _ => false
  end.

Definition is_Authenticate (c : Entry) : bool :=
  match c with
  | Called (Authenticate _ _) _ => true
  | _ => false
  end.

(** The first request of a [ListAccounts] call: the one with no cursor.
    Every call of [ListAccounts] makes exactly one. *)
Definition is_listing_start (c : Entry) : bool :=
  match c with
  | Called (client_ListAccounts _ None) _ => true
  | _ => false
  end.

Definition is_CleanupStaleSessions (c : Entry) : bool :=
  match c with
  | Called CleanupStaleSessions _ => true
  | _ => false
  end.

Definition count (p : Entry -> bool) (t : list Entry) : nat :=
  List.length (filter p t).

(** The part of a trace after its first [Authenticate] call (empty when
    there is none). *)
Fixpoint after_Authenticate (t : list Entry) : list Entry :=
  match t with
  | [] => []
  | c :: t' => if is_Authenticate c then t' else after_Authenticate t'
  end.

Section Workflow.

Variable World : Type.
Variable handle : forall X : Type, Event X -> World -> X * World.
Variable sort_Slice : SliceSorter.
Variable EqualFold : string -> string -> bool.

Definition M (A : Type) : Type := World -> Run World A.

Definition ret (A : Type) (a : A) : M A :=
  fun w => {| outcome := Done a; final := w; trace := [] |}.

(** [r] with the calls [t] made before it. *)
Definition prepend (A : Type) (t : list Entry) (r : Run World A)
  : Run World A :=
  {| outcome := outcome r; final := final r; trace := (t ++ trace r)%list |}.

Definition bind (A B : Type) (m : M A) (k : A -> M B) : M B :=
  fun w =>
    let r := m w in
    match outcome r with
    | Done a => prepend (trace r) (k a (final r))
    | Panicked msg =>
        {| outcome := Panicked msg; final := final r; trace := trace r |}
    | OutOfFuel =>
        {| outcome := OutOfFuel; final := final r; trace := trace r |}
    end.

Definition call (X : Type) (e : Event X) : M X :=
  fun w =>
    let (answer, w') := handle e w in
    {| outcome := Done answer; final := w'; trace := [Called e answer] |}.

Definition panic (A : Type) (msg : string) : M A :=
  fun w => {| outcome := Panicked msg; final := w; trace := [] |}.

Definition out_of_fuel (A : Type) : M A :=
  fun w => {| outcome := OutOfFuel; final := w; trace := [] |}.

Arguments panic {A} msg.
Arguments out_of_fuel {A}.

Notation "x <- m ;; k" := (bind m (fun x => k))
  (at level 61, m at next level, right associativity).
Notation "m ;;; k" := (bind m (fun _ => k))
  (at level 61, right associativity).

(** [s[i]] on a slice: a panic when [i] is out of range. *)
Definition index (A : Type) (s : list A) (i : Z) : M A :=
  if (i <? 0)%Z then panic "index out of range"
  else match nth_error s (Z.to_nat i) with
       | Some a => ret a
       | None => panic "index out of range"
       end.

(** *** [ListAccounts] and [ListRoles]: the pagination loops

    The Go loops are [for { ... }] with a [break] when the page has no
    [NextToken]; nothing bounds them. [fuel] is the number of requests a
    run may make: with enough of it the result is the function's, and
    [OutOfFuel] stands for a loop that is still asking for pages. *)

Fixpoint ListAccounts_loop (fuel : nat) (accessToken : string)
    (allAccounts : list AccountInfo) (nextToken : option string)
  : M (list AccountInfo * option error) :=
  match fuel with
  | O => out_of_fuel
  | S fuel' =>
      r <- call (client_ListAccounts accessToken nextToken) ;;
      match r with
      | Err err => ret ([], Some err)
      | Ok result =>
          let allAccounts := (allAccounts ++ AccountList result)%list in
          match AccountsNextToken result with
          | None => ret (allAccounts, None)
          | Some t => ListAccounts_loop fuel' accessToken allAccounts (Some t)
          end
      end
  end.

Definition ListAccounts (fuel : nat) (accessToken : string)
  : M (list AccountInfo * option error) :=
  ListAccounts_loop fuel accessToken [] None.

Fixpoint ListRoles_loop (fuel : nat) (accessToken accountId : string)
    (allRoles : list RoleInfo) (nextToken : option string)
  : M (list RoleInfo * option error) :=
  match fuel with
  | O => out_of_fuel
  | S fuel' =>
      r <- call (client_ListAccountRoles accessToken accountId nextToken) ;;
      match r with
      | Err err => ret ([], Some err)
      | Ok result =>
          let allRoles := (allRoles ++ RoleList result)%list in
          match RolesNextToken result with
          | None => ret (allRoles, None)
          | Some t =>
              ListRoles_loop fuel' accessToken accountId allRoles (Some t)
          end
      end
  end.

Definition ListRoles (fuel : nat) (accessToken accountId : string)
  : M (list RoleInfo * option error) :=
  ListRoles_loop fuel accessToken accountId [] None.

Definition GetRoleCredentials (accessToken accountId roleName : string)
  : M (option RoleCredentials * option error) :=
  r <- call (client_GetRoleCredentials accessToken accountId roleName) ;;
  match r with
  | Err err => ret (None, Some err)
  | Ok creds => ret (creds, None)
  end.

(** *** [handleAccountRoleSelection] *)

(** The scan [for i, x := range xs] that stops ([break]) at the first
    [x] whose name is [strings.EqualFold] to the hint. *)
Definition firstFold (A : Type) (name : A -> string) (hint : string)
    (xs : list A) : option A :=
  find (fun x => EqualFold (name x) hint) xs.

Definition accountOption (account : AccountInfo) : string :=
  AccountName account ++ " (" ++ AccountId account ++ ")".

(** The account half of the function (secrets.go, lines 420 to 463), up
    to the first
    ["✓ Selected"] line. [Err] carries the error the function returns. *)
Definition selectAccount (accounts : list AccountInfo)
    (accountName : string) : M (result AccountInfo) :=
  let accounts := sort_Slice lessAccount accounts in
  found <-
    (if String.eqb accountName "" then ret None
     else match firstFold AccountName accountName accounts with
          | None =>
              call (Printf ("Account '" ++ accountName
                            ++ "' not found. Available accounts:"
                            ++ nl ++ nl)) ;;;
              ret None
          | Some account =>
              call (Printf ("Found account: " ++ AccountName account ++ nl)) ;;;
              ret (Some account)
          end) ;;
  chosen <-
    match found with
    | Some account => ret (Ok account)
    | None =>
        let accountOptions := map accountOption accounts in
        r <- call (RunSelector "Select AWS Account:" accountOptions) ;;
        match r with
        | Err err => ret (Err ("error selecting account: " ++ err))
        | Ok selectedAccountIndex =>
            if (selectedAccountIndex =? -1)%Z
            then ret (Err "no account selected")
            else account <- index accounts selectedAccountIndex ;;
                 ret (Ok account)
        end
    end ;;
  match chosen with
  | Err err => ret (Err err)
  | Ok account =>
      call (Printf (check_mark ++ " Selected: " ++ AccountName account ++ nl)) ;;;
      ret (Ok account)
  end.

(** The role half (lines 475 to 518), from [sort.Slice(roles, ...)] to the
    second
    ["✓ Selected"] line. *)
Definition selectRole (selectedAccount : AccountInfo)
    (roles : list RoleInfo) (roleName : string) : M (result RoleInfo) :=
  let roles := sort_Slice lessRole roles in
  found <-
    (if String.eqb roleName "" then ret None
     else match firstFold RoleName roleName roles with
          | None =>
              call (Printf ("Role '" ++ roleName ++ "' not found in account "
                            ++ AccountName selectedAccount
                            ++ ". Available roles:" ++ nl ++ nl)) ;;;
              ret None
          | Some role =>
              call (Printf ("Found role: " ++ RoleName role ++ nl)) ;;;
              ret (Some role)
          end) ;;
  chosen <-
    match found with
    | Some role => ret (Ok role)
    | None =>
        let roleOptions := map RoleName roles in
        r <- call (RunSelector
                     ("Select role for " ++ AccountName selectedAccount ++ ":")
                     roleOptions) ;;
        match r with
        | Err err => ret (Err ("error selecting role: " ++ err))
        | Ok selectedRoleIndex =>
            if (selectedRoleIndex =? -1)%Z
            then ret (Err "no role selected")
            else role <- index roles selectedRoleIndex ;;
                 ret (Ok role)
        end
    end ;;
  match chosen with
  | Err err => ret (Err err)
  | Ok role =>
      call (Printf (check_mark ++ " Selected: " ++ RoleName role ++ nl)) ;;;
      ret (Ok role)
  end.

(** The tail of the function (lines 520 to 545): credentials, profile,
    session, cleanup. *)
Definition materialize (accessToken : string)
    (selectedAccount : AccountInfo) (selectedRole : RoleInfo)
  : M (option error) :=
  got <- GetRoleCredentials accessToken (AccountId selectedAccount)
           (RoleName selectedRole) ;;
  match snd got with
  | Some err => ret (Some ("error getting role credentials: " ++ err))
  | None =>
      let creds := fst got in
      written <- call (WriteProfile (AccountName selectedAccount)
                         (AccountId selectedAccount)
                         (RoleName selectedRole) creds) ;;
      match written with
      | Err err => ret (Some ("error writing profile: " ++ err))
      | Ok profileName =>
          ppid <- call Getppid ;;
          saved <- call (SaveSession ppid profileName
                           (AccountId selectedAccount)
                           (AccountName selectedAccount)
                           (RoleName selectedRole)) ;;
          match saved with
          | Some err => ret (Some ("error saving session: " ++ err))
          | None =>
              call CleanupStaleSessions ;;;
              call (Printf (nl ++ "Successfully authenticated to "
                            ++ AccountName selectedAccount ++ " ("
                            ++ AccountId selectedAccount ++ ") as "
                            ++ RoleName selectedRole ++ nl)) ;;;
              call (Printf (nl ++ "To use in this terminal:" ++ nl)) ;;;
              call (Printf ("export AWS_PROFILE=" ++ profileName ++ nl)) ;;;
              region <- call (viper_GetString "default_region") ;;
              call (Printf ("export AWS_REGION=" ++ region ++ nl)) ;;;
              ret None
          end
      end
  end.

Definition handleAccountRoleSelection (fuel : nat) (accessToken : string)
    (accounts : list AccountInfo) (accountName roleName : string)
  : M (option error) :=
  picked <- selectAccount accounts accountName ;;
  match picked with
  | Err err => ret (Some err)
  | Ok selectedAccount =>
      listed <- ListRoles fuel accessToken (AccountId selectedAccount) ;;
      match snd listed with
      | Some err => ret (Some ("error listing roles: " ++ err))
      | None =>
          let roles := fst listed in
          if Nat.eqb (List.length roles) 0
          then ret (Some "no roles found for this account")
          else
            picked' <- selectRole selectedAccount roles roleName ;;
            match picked' with
            | Err err => ret (Some err)
            | Ok selectedRole =>
                materialize accessToken selectedAccount selectedRole
            end
      end
  end.

(** *** [RunLogin] *)

(** [awscconfig.SaveAccountCache(accounts)], whose failure is only
    reported. *)
Definition saveAccountCache (accounts : list AccountInfo) : M unit :=
  saved <- call (SaveAccountCache accounts) ;;
  match saved with
  | Some err =>
      call (Printf ("Warning: failed to save account cache: " ++ err ++ nl))
  | None => ret tt
  end.

(** From ["Starting SSO authentication..."] to the end of [RunLogin]
    (lines 383 to 416). *)
Definition reauthenticate (fuel : nat) (accountName roleName : string)
  : M (option error) :=
  call (Printf ("Starting SSO authentication..." ++ nl)) ;;;
  startURL <- call (viper_GetString "sso.start_url") ;;
  ssoRegion <- call (viper_GetString "sso.region") ;;
  failed <- call (Authenticate startURL ssoRegion) ;;
  match failed with
  | Some err => ret (Some ("SSO authentication failed: " ++ err))
  | None =>
      token <- call GetCachedToken ;;
      match token with
      | Err err => ret (Some ("failed to get access token: " ++ err))
      | Ok accessToken =>
          listed <- ListAccounts fuel accessToken ;;
          match snd listed with
          | Some err => ret (Some ("error listing accounts: " ++ err))
          | None =>
              let accounts := fst listed in
              if Nat.eqb (List.length accounts) 0
              then ret (Some "no accounts found")
              else
                saveAccountCache accounts ;;;
                handleAccountRoleSelection fuel accessToken accounts
                  accountName roleName
          end
      end
  end.

(** The cached-token attempt of [RunLogin] ([if !force { ... }], lines
    367 to 381):
    [Some r] when it returns [r] from the function, [None] when control
    falls out of the block. *)
Definition tryCachedToken (fuel : nat) (accountName roleName : string)
  : M (option (option error)) :=
  token <- call GetCachedToken ;;
  match token with
  | Err _ => ret None
  | Ok accessToken =>
      listed <- ListAccounts fuel accessToken ;;
      match snd listed with
      | Some _ => ret None
      | None =>
          let accounts := fst listed in
          if Nat.ltb 0 (List.length accounts)
          then
            saveAccountCache accounts ;;;
            r <- handleAccountRoleSelection fuel accessToken accounts
                   accountName roleName ;;
            ret (Some r)
          else ret None
      end
  end.

Definition RunLogin (fuel : nat) (force : bool)
    (accountName roleName : string) : M (option error) :=
  url <- call (viper_GetString "sso.start_url") ;;
  if String.eqb url ""
  then ret (Some "no SSO configuration found. Please run 'awsc config init' first")
  else
    manager <- call NewCredentialsManager ;;
    match manager with
    | Err err => ret (Some ("failed to create credentials manager: " ++ err))
    | Ok _ =>
        early <- (if negb force
                  then tryCachedToken fuel accountName roleName
                  else ret None) ;;
        match early with
        | Some r => ret r
        | None => reauthenticate fuel accountName roleName
        end
    end.

End Workflow.

Arguments panic {World A} msg.
Arguments out_of_fuel {World A}.

(** ** What the provider serves to one paginated call *)

Section Paging.

Variable World : Type.
Variable handle : forall X : Type, Event X -> World -> X * World.

(** From world [w] and cursor [cursor], the provider answers the requests
    of one [ListAccounts] call with the pages [pages], each but the last
    with a cursor to the next; the call leaves the world in [w']. *)
Inductive serves_accounts (accessToken : string)
  : option string -> World -> list (list AccountInfo) -> World -> Prop :=
| serves_accounts_last cursor w page w' :
    handle (client_ListAccounts accessToken cursor) w
    = (Ok {| AccountList := page; AccountsNextToken := None |}, w') ->
    serves_accounts accessToken cursor w [page] w'
| serves_accounts_more cursor w page next w1 pages w' :
    handle (client_ListAccounts accessToken cursor) w
    = (Ok {| AccountList := page; AccountsNextToken := Some next |}, w1) ->
    serves_accounts accessToken (Some next) w1 pages w' ->
    serves_accounts accessToken cursor w (page :: pages) w'.

Inductive serves_roles (accessToken accountId : string)
  : option string -> World -> list (list RoleInfo) -> World -> Prop :=
| serves_roles_last cursor w page w' :
    handle (client_ListAccountRoles accessToken accountId cursor) w
    = (Ok {| RoleList := page; RolesNextToken := None |}, w') ->
    serves_roles accessToken accountId cursor w [page] w'
| serves_roles_more cursor w page next w1 pages w' :
    handle (client_ListAccountRoles accessToken accountId cursor) w
    = (Ok {| RoleList := page; RolesNextToken := Some next |}, w1) ->
    serves_roles accessToken accountId (Some next) w1 pages w' ->
    serves_roles accessToken accountId cursor w (page :: pages) w'.

(** The provider serves the pages [pages] and then fails the next fetch
    with [err]. *)
Inductive fails_accounts (accessToken : string)
  : option string -> World -> list (list AccountInfo) -> error -> World
    -> Prop :=
| fails_accounts_now cursor w err w' :
    handle (client_ListAccounts accessToken cursor) w = (Err err, w') ->
    fails_accounts accessToken cursor w [] err w'
| fails_accounts_later cursor w page next w1 pages err w' :
    handle (client_ListAccounts accessToken cursor) w
    = (Ok {| AccountList := page; AccountsNextToken := Some next |}, w1) ->
    fails_accounts accessToken (Some next) w1 pages err w' ->
    fails_accounts accessToken cursor w (page :: pages) err w'.

Inductive fails_roles (accessToken accountId : string)
  : option string -> World -> list (list RoleInfo) -> error -> World
    -> Prop :=
| fails_roles_now cursor w err w' :
    handle (client_ListAccountRoles accessToken accountId cursor) w
    = (Err err, w') ->
    fails_roles accessToken accountId cursor w [] err w'
| fails_roles_later cursor w page next w1 pages err w' :
    handle (client_ListAccountRoles accessToken accountId cursor) w
    = (Ok {| RoleList := page; RolesNextToken := Some next |}, w1) ->
    fails_roles accessToken accountId (Some next) w1 pages err w' ->
    fails_roles accessToken accountId cursor w (page :: pages) err w'.

End Paging.

(** ** More of what a trace shows *)

(** The chooser was called and gave no selection: index [-1], or an error. *)
Definition no_selection (c : Entry) : bool :=
  match c with
  | Called e answer =>
      match e in Event X return X -> bool with
      | RunSelector _ _ =>
          fun answer => match answer with
                        | Ok i => (i =? -1)%Z
                        | Err _ => true
                        end
      | _ => fun _ => false
      end answer
  end.

(** The error of a failed [SaveSession] call. *)
Definition session_error (c : Entry) : option error :=
  match c with
  | Called e answer =>
      match e in Event X return X -> option error with
      | SaveSession _ _ _ _ _ => fun answer => answer
      | _ => fun _ => None
      end answer
  end.

(** The error of a failed [CleanupStaleSessions] call. *)
Definition cleanup_error (c : Entry) : option error :=
  match c with
  | Called e answer =>
      match e in Event X return X -> option error with
      | CleanupStaleSessions => fun answer => answer
      | _ => fun _ => None
      end answer
  end.

(** A profile was written. *)
Definition profile_written (c : Entry) : bool :=
  match c with
  | Called e answer =>
      match e in Event X return X -> bool with
      | WriteProfile _ _ _ _ =>
          fun answer => match answer with Ok _ => true | Err _ => false end
      | _ => fun _ => false
      end answer
  end.

(** [Authenticate] was called and returned [nil]. *)
Definition authenticated (c : Entry) : bool :=
  match c with
  | Called e answer =>
      match e in Event X return X -> bool with
      | Authenticate _ _ =>
          fun answer => match answer with None => true | Some _ => false end
      | _ => fun _ => false
      end answer
  end.

(** [GetCachedToken] was called and returned a token. *)
Definition token_read (c : Entry) : bool :=
  match c with
  | Called e answer =>
      match e in Event X return X -> bool with
      | GetCachedToken =>
          fun answer => match answer with Ok _ => true | Err _ => false end
      | _ => fun _ => false
      end answer
  end.

(** The calls [handleAccountRoleSelection] can make. *)
Definition selection_call (c : Entry) : bool :=
  match c with
  | Called (Printf _) _
  | Called (RunSelector _ _) _
  | Called (client_ListAccountRoles _ _ _) _
  | Called (client_GetRoleCredentials _ _ _) _
  | Called (WriteProfile _ _ _ _) _
  | Called Getppid _
  | Called (SaveSession _ _ _ _ _) _
  | Called CleanupStaleSessions _
  | Called (viper_GetString _) _ => true
  | _ => false
  end.

(** A page request of [ListRoles] / of [ListAccounts]. *)
Definition roles_request (c : Entry) : bool :=
  match c with
  | Called (client_ListAccountRoles _ _ _) _ => true
  | _ => false
  end.

Definition accounts_request (c : Entry) : bool :=
  match c with
  | Called (client_ListAccounts _ _) _ => true
  | _ => false
  end.

(** The calls [RunLogin] makes itself, before it hands over to
    [handleAccountRoleSelection]. *)
Definition login_call (c : Entry) : bool :=
  match c with
  | Called (viper_GetString _) _
  | Called NewCredentialsManager _
  | Called GetCachedToken _
  | Called (Authenticate _ _) _
  | Called (client_ListAccounts _ _) _
  | Called (SaveAccountCache _) _
  | Called (Printf _) _ => true
  | _ => false
  end.

(** ** What every run of [handleAccountRoleSelection] obeys

    The facts about one run that the login workflow relies on: which calls
    it can make; that a chooser with no selection, and a failed session
    write, end the run there with an error; that nothing after the cleanup
    sweep can fail. *)
Definition ends_with (t : list Entry) (c : Entry) : Prop :=
  exists before, t = (before ++ [c])%list.

Record selection_run (W : Type) (r : Run W (option error)) : Prop := {
  run_calls : Forall (fun c => selection_call c = true) (trace r);
  run_no_selection :
    forall c, In c (trace r) -> no_selection c = true ->
              (exists err, outcome r = Done (Some err)) /\ ends_with (trace r) c;
  run_session_error :
    forall c err, In c (trace r) -> session_error c = Some err ->
                  outcome r = Done (Some ("error saving session: " ++ err))
                  /\ ends_with (trace r) c
                  /\ existsb profile_written (trace r) = true;
  run_cleanup :
    forall c, In c (trace r) -> is_CleanupStaleSessions c = true ->
              outcome r = Done None;
  run_has_accounts : outcome r <> Done (Some "no accounts found")
}.

(** ** A scripted world, to run the workflow on examples *)

Record Script := {
  config : string -> string;
  manager : result unit;
  tokens : list (result string);
  logins : list (option error);
  accountPages : string -> option string -> result ListAccountsOutput;
  rolePages : string -> string -> option string -> result ListAccountRolesOutput;
  roleCredentials : result (option RoleCredentials);
  cacheWrite : option error;
  choices : list (result Z);
  profileWrite : result string;
  parent : Z;
  sessionWrite : option error;
  sweep : option error
}.

Definition next_token (s : Script) : result string * Script :=
  match tokens s with
  | [] => (Err "no active session", s)
  | t :: rest =>
      (t, {| config := config s; manager := manager s; tokens := rest;
             logins := logins s; accountPages := accountPages s;
             rolePages := rolePages s; roleCredentials := roleCredentials s;
             cacheWrite := cacheWrite s; choices := choices s;
             profileWrite := profileWrite s; parent := parent s;
             sessionWrite := sessionWrite s; sweep := sweep s |})
  end.

Definition next_login (s : Script) : option error * Script :=
  match logins s with
  | [] => (Some "authentication refused", s)
  | a :: rest =>
      (a, {| config := config s; manager := manager s; tokens := tokens s;
             logins := rest; accountPages := accountPages s;
             rolePages := rolePages s; roleCredentials := roleCredentials s;
             cacheWrite := cacheWrite s; choices := choices s;
             profileWrite := profileWrite s; parent := parent s;
             sessionWrite := sessionWrite s; sweep := sweep s |})
  end.

Definition next_choice (s : Script) : result Z * Script :=
  match choices s with
  | [] => (Ok (-1)%Z, s)
  | c :: rest =>
      (c, {| config := config s; manager := manager s; tokens := tokens s;
             logins := logins s; accountPages := accountPages s;
             rolePages := rolePages s; roleCredentials := roleCredentials s;
             cacheWrite := cacheWrite s; choices := rest;
             profileWrite := profileWrite s; parent := parent s;
             sessionWrite := sessionWrite s; sweep := sweep s |})
  end.

(** Variations of a script. *)
Definition with_choices (s : Script) (cs : list (result Z)) : Script :=
  {| config := config s; manager := manager s; tokens := tokens s;
     logins := logins s; accountPages := accountPages s;
     rolePages := rolePages s; roleCredentials := roleCredentials s;
     cacheWrite := cacheWrite s; choices := cs;
     profileWrite := profileWrite s; parent := parent s;
     sessionWrite := sessionWrite s; sweep := sweep s |}.

Definition with_tokens (s : Script) (ts : list (result string))
    (ls : list (option error)) : Script :=
  {| config := config s; manager := manager s; tokens := ts;
     logins := ls; accountPages := accountPages s;
     rolePages := rolePages s; roleCredentials := roleCredentials s;
     cacheWrite := cacheWrite s; choices := choices s;
     profileWrite := profileWrite s; parent := parent s;
     sessionWrite := sessionWrite s; sweep := sweep s |}.

Definition with_session (s : Script) (saved swept : option error) : Script :=
  {| config := config s; manager := manager s; tokens := tokens s;
     logins := logins s; accountPages := accountPages s;
     rolePages := rolePages s; roleCredentials := roleCredentials s;
     cacheWrite := cacheWrite s; choices := choices s;
     profileWrite := profileWrite s; parent := parent s;
     sessionWrite := saved; sweep := swept |}.

Definition play (X : Type) (e : Event X) : Script -> X * Script :=
  match e in Event X return Script -> X * Script with
  | viper_GetString key => fun s => (config s key, s)
  | NewCredentialsManager => fun s => (manager s, s)
  | GetCachedToken => next_token
  | Authenticate _ _ => next_login
  | client_ListAccounts accessToken nextToken =>
      fun s => (accountPages s accessToken nextToken, s)
  | client_ListAccountRoles accessToken accountId nextToken =>
      fun s => (rolePages s accessToken accountId nextToken, s)
  | client_GetRoleCredentials _ _ _ => fun s => (roleCredentials s, s)
  | SaveAccountCache _ => fun s => (cacheWrite s, s)
  | RunSelector _ _ => next_choice
  | WriteProfile _ _ _ _ => fun s => (profileWrite s, s)
  | Getppid => fun s => (parent s, s)
  | SaveSession _ _ _ _ _ => fun s => (sessionWrite s, s)
  | CleanupStaleSessions => fun s => (sweep s, s)
  | Printf _ => fun s => (tt, s)
  end.

(** The scenario of the specification: accounts Dev (111) and Prod (222),
    roles Admin and ReadOnly, everything else succeeding. *)
Definition Dev : AccountInfo :=
  {| AccountId := "111"; AccountName := "Dev"; EmailAddress := "dev@example.com" |}.
Definition Prod : AccountInfo :=
  {| AccountId := "222"; AccountName := "Prod"; EmailAddress := "prod@example.com" |}.
Definition Admin : RoleInfo := {| RoleAccountId := "111"; RoleName := "Admin" |}.
Definition ReadOnly : RoleInfo := {| RoleAccountId := "111"; RoleName := "ReadOnly" |}.

Definition demo_credentials : RoleCredentials :=
  {| AccessKeyId := "AKIA"; SecretAccessKey := "secret";
     SessionToken := "session"; Expiration := 1700000000 |}.

Definition demo_config (key : string) : string :=
  if String.eqb key "sso.start_url" then "https://example.awsapps.com/start"
  else if String.eqb key "sso.region" then "eu-west-1"
  else if String.eqb key "default_region" then "eu-west-1"
  else "".

(** Accounts in one page for the token ["one"], and split over two pages
    (Prod first) for any other token. *)
Definition demo_accountPages (accessToken : string) (nextToken : option string)
  : result ListAccountsOutput :=
  if String.eqb accessToken "one"
  then Ok {| AccountList := [Prod; Dev]; AccountsNextToken := None |}
  else match nextToken with
       | None => Ok {| AccountList := [Prod]; AccountsNextToken := Some "p2" |}
       | Some _ => Ok {| AccountList := [Dev]; AccountsNextToken := None |}
       end.

Definition demo_rolePages (accessToken accountId : string)
    (nextToken : option string) : result ListAccountRolesOutput :=
  if String.eqb accessToken "one"
  then Ok {| RoleList := [ReadOnly; Admin]; RolesNextToken := None |}
  else match nextToken with
       | None => Ok {| RoleList := [ReadOnly]; RolesNextToken := Some "p2" |}
       | Some _ => Ok {| RoleList := [Admin]; RolesNextToken := None |}
       end.

Definition demo : Script :=
  {| config := demo_config;
     manager := Ok tt;
     tokens := [Ok "cached"];
     logins := [];
     accountPages := demo_accountPages;
     rolePages := demo_rolePages;
     roleCredentials := Ok (Some demo_credentials);
     cacheWrite := None;
     choices := [];
     profileWrite := Ok "Dev-Admin";
     parent := 500;
     sessionWrite := None;
     sweep := None |}.

(** A provider whose second page fetch fails. *)
Definition broken_accountPages (accessToken : string) (nextToken : option string)
  : result ListAccountsOutput :=
  match nextToken with
  | None => Ok {| AccountList := [Prod]; AccountsNextToken := Some "p2" |}
  | Some _ => Err "throttled"
  end.

Definition broken_rolePages (accessToken accountId : string)
    (nextToken : option string) : result ListAccountRolesOutput :=
  match nextToken with
  | None => Ok {| RoleList := [ReadOnly]; RolesNextToken := Some "p2" |}
  | Some _ => Err "throttled"
  end.

Definition broken : Script :=
  {| config := demo_config;
     manager := Ok tt;
     tokens := [Ok "cached"];
     logins := [];
     accountPages := broken_accountPages;
     rolePages := broken_rolePages;
     roleCredentials := Ok (Some demo_credentials);
     cacheWrite := None;
     choices := [];
     profileWrite := Ok "Dev-Admin";
     parent := 500;
     sessionWrite := None;
     sweep := None |}.

(** ** The cached-token attempt, in the words of the specification *)

(** [RunLogin] is past its two guards: the configuration has a start URL
    and the credentials manager was created; the world is then [w2]. *)
Definition passes_guards (World : Type)
    (handle : forall X : Type, Event X -> World -> X * World)
    (w w2 : World) : Prop :=
  exists url w1,
    handle _ (viper_GetString "sso.start_url") w = (url, w1)
    /\ url <> ""
    /\ handle _ NewCredentialsManager w1 = (Ok tt, w2).

Inductive CachedAttempt : Type :=
| Works        (* token read, accounts listed, at least one account *)
| Unusable     (* no token, or the listing failed or was empty *)
| Unfinished.  (* the listing is still running *)

Definition cachedAttempt (World : Type)
    (handle : forall X : Type, Event X -> World -> X * World)
    (fuel : nat) (w2 : World) : CachedAttempt :=
  match fst (handle _ GetCachedToken w2) with
  | Err _ => Unusable
  | Ok accessToken =>
      match outcome (ListAccounts handle fuel accessToken
                       (snd (handle _ GetCachedToken w2))) with
      | Done (accounts, None) =>
          if Nat.ltb 0 (List.length accounts) then Works else Unusable
      | Done (_, Some _) => Unusable
      | Panicked _ => Unfinished
      | OutOfFuel => Unfinished
      end
  end.


(** A world where the cached token lists no account; after a fresh
    authentication the new token lists Prod and Dev. *)
Definition empty_then_full (accessToken : string) (nextToken : option string)
  : result ListAccountsOutput :=
  if String.eqb accessToken "cached"
  then Ok {| AccountList := []; AccountsNextToken := None |}
  else Ok {| AccountList := [Prod; Dev]; AccountsNextToken := None |}.

Definition emptied : Script :=
  {| config := demo_config;
     manager := Ok tt;
     tokens := [Ok "cached"; Ok "fresh"];
     logins := [None];
     accountPages := empty_then_full;
     rolePages := demo_rolePages;
     roleCredentials := Ok (Some demo_credentials);
     cacheWrite := None;
     choices := [];
     profileWrite := Ok "Dev-Admin";
     parent := 500;
     sessionWrite := None;
     sweep := None |}.

(** ** The requests of one paginated call, in order *)

(** The requests [t] of a [ListAccounts] call follow the cursor: each
    carries the access token of the call and the cursor the provider gave
    with the page before ([cursor] for the first), and none is made after
    a page without cursor or after a failure. *)
Fixpoint accounts_chain (accessToken : string) (cursor : option string)
    (t : list Entry) : Prop :=
  match t with
  | [] => True
  | Called e answer :: rest =>
      match e in Event X return X -> Prop with
      | client_ListAccounts token next =>
          fun answer =>
            token = accessToken /\ next = cursor
            /\ match answer with
               | Ok page =>
                   match AccountsNextToken page with
                   | Some n => accounts_chain accessToken (Some n) rest
                   | None => rest = []
                   end
               | Err _ => rest = []
               end
      | _ => fun _ => False
      end answer
  end.

Fixpoint roles_chain (accessToken accountId : string) (cursor : option string)
    (t : list Entry) : Prop :=
  match t with
  | [] => True
  | Called e answer :: rest =>
      match e in Event X return X -> Prop with
      | client_ListAccountRoles token account next =>
          fun answer =>
            token = accessToken /\ account = accountId /\ next = cursor
            /\ match answer with
               | Ok page =>
                   match RolesNextToken page with
                   | Some n => roles_chain accessToken accountId (Some n) rest
                   | None => rest = []
                   end
               | Err _ => rest = []
               end
      | _ => fun _ => False
      end answer
  end.

(** A provider that gives a next cursor with every page. *)
Definition endless_accountPages (accessToken : string)
    (nextToken : option string) : result ListAccountsOutput :=
  Ok {| AccountList := [Dev]; AccountsNextToken := Some "again" |}.

Definition endless_rolePages (accessToken accountId : string)
    (nextToken : option string) : result ListAccountRolesOutput :=
  Ok {| RoleList := [Admin]; RolesNextToken := Some "again" |}.

Definition endless : Script :=
  {| config := demo_config;
     manager := Ok tt;
     tokens := [Ok "cached"];
     logins := [];
     accountPages := endless_accountPages;
     rolePages := endless_rolePages;
     roleCredentials := Ok (Some demo_credentials);
     cacheWrite := None;
     choices := [];
     profileWrite := Ok "Dev-Admin";
     parent := 500;
     sessionWrite := None;
     sweep := None |}.

(** ** More kinds of calls *)

(** The two calls of the guards of [RunLogin]. *)
Definition guard_call (c : Entry) : bool :=
  match c with
  | Called (viper_GetString key) _ => String.eqb key "sso.start_url"
  | Called NewCredentialsManager _ => true
  | _ => false
  end.

Definition is_GetCachedToken (c : Entry) : bool :=
  match c with
  | Called GetCachedToken _ => true
  | _ => false
  end.

(** The accounts a [SaveAccountCache] call was given. *)
Definition cached_accounts (c : Entry) : option (list AccountInfo) :=
  match c with
  | Called (SaveAccountCache accounts) _ => Some accounts
  | _ => None
  end.

(** The error of a failed [SaveAccountCache] call. *)
Definition cache_error (c : Entry) : option error :=
  match c with
  | Called e answer =>
      match e in Event X return X -> option error with
      | SaveAccountCache _ => fun answer => answer
      | _ => fun _ => None
      end answer
  end.

(** The text of a [Printf] call. *)
Definition printed (c : Entry) : option string :=
  match c with
  | Called (Printf text) _ => Some text
  | _ => None
  end.

(** The part of a trace before its first [Authenticate] call (all of it
    when there is none). *)
Fixpoint before_Authenticate (t : list Entry) : list Entry :=
  match t with
  | [] => []
  | c :: t' => if is_Authenticate c then [] else c :: before_Authenticate t'
  end.

Definition is_SaveAccountCache (c : Entry) : bool :=
  match c with
  | Called (SaveAccountCache _) _ => true
  | _ => false
  end.

(** ** What the tail of [handleAccountRoleSelection] shows *)

(** The token, account id and role name of a [GetRoleCredentials]
    request. *)
Definition credentials_request (c : Entry)
  : option (string * string * string) :=
  match c with
  | Called (client_GetRoleCredentials accessToken accountId roleName) _ =>
      Some (accessToken, accountId, roleName)
  | _ => None
  end.

(** The arguments of a [SaveSession] call. *)
Definition session_request (c : Entry)
  : option (Z * string * string * string * string) :=
  match c with
  | Called (SaveSession ppid profileName accountId accountName roleName) _ =>
      Some (ppid, profileName, accountId, accountName, roleName)
  | _ => None
  end.

(** The index a chooser answered. *)
Definition chosen_index (c : Entry) : option Z :=
  match c with
  | Called e answer =>
      match e in Event X return X -> option Z with
      | RunSelector _ _ =>
          fun answer => match answer with Ok i => Some i | Err _ => None end
      | _ => fun _ => None
      end answer
  end.

(** The last calls of a login that succeeds: the session saved under the
    profile name, the sweep, and the lines printed for the operator. *)
Definition success_calls (ppid : Z)
    (profileName accountId accountName roleName : string)
    (swept : option error) (region : string) : list Entry :=
  [ Called (SaveSession ppid profileName accountId accountName roleName) None;
    Called CleanupStaleSessions swept;
    Called (Printf (nl ++ "Successfully authenticated to " ++ accountName
                    ++ " (" ++ accountId ++ ") as " ++ roleName ++ nl)) tt;
    Called (Printf (nl ++ "To use in this terminal:" ++ nl)) tt;
    Called (Printf ("export AWS_PROFILE=" ++ profileName ++ nl)) tt;
    Called (viper_GetString "default_region") region;
    Called (Printf ("export AWS_REGION=" ++ region ++ nl)) tt ].

(** Every run of [handleAccountRoleSelection] on the candidates
    [accounts] with the token [accessToken]: what it asks credentials for
    and what it saves. *)
Record selection_sound (World : Type)
    (handle : forall X : Type, Event X -> World -> X * World)
    (fuel : nat) (accessToken : string) (accounts : list AccountInfo)
    (r : Run World (option error)) : Prop := {
  sound_credentials :
    forall c token accountId roleName,
      In c (trace r) ->
      credentials_request c = Some (token, accountId, roleName) ->
      token = accessToken
      /\ (exists account,
             In account accounts /\ AccountId account = accountId)
      /\ (exists roles role w1 w2 requests,
             ListRoles handle fuel accessToken accountId w1
             = {| outcome := Done (roles, None); final := w2;
                  trace := requests |}
             /\ In role roles /\ RoleName role = roleName);
  sound_session :
    forall c ppid profileName accountId accountName roleName,
      In c (trace r) ->
      session_request c
      = Some (ppid, profileName, accountId, accountName, roleName) ->
      (exists account,
          In account accounts /\ AccountId account = accountId
          /\ AccountName account = accountName)
      /\ exists creds,
          In (Called (client_GetRoleCredentials accessToken accountId roleName)
                (Ok creds)) (trace r)
          /\ In (Called (WriteProfile accountName accountId roleName creds)
                   (Ok profileName)) (trace r)
          /\ In (Called Getppid ppid) (trace r)
}.

(** Every run of [handleAccountRoleSelection]: how it can end. *)
Record selection_end (W : Type) (r : Run W (option error)) : Prop := {
  end_success :
    outcome r = Done None ->
    exists before ppid profileName accountId accountName roleName swept region,
      trace r
      = (before ++ success_calls ppid profileName accountId accountName
                     roleName swept region)%list;
  end_profile :
    existsb profile_written (trace r) = true ->
    outcome r = Done None
    \/ exists err, outcome r = Done (Some ("error saving session: " ++ err));
  end_panic :
    forall msg, outcome r = Panicked msg ->
      msg = "index out of range"
      /\ exists c i, ends_with (trace r) c /\ chosen_index c = Some i
                     /\ i <> (-1)%Z
}.

(** A script whose account-cache write fails. *)
Definition with_cache (s : Script) (written : option error) : Script :=
  {| config := config s; manager := manager s; tokens := tokens s;
     logins := logins s; accountPages := accountPages s;
     rolePages := rolePages s; roleCredentials := roleCredentials s;
     cacheWrite := written; choices := choices s;
     profileWrite := profileWrite s; parent := parent s;
     sessionWrite := sessionWrite s; sweep := sweep s |}.

(** * Package [cmd]: the commands that need a manager

    [runSecretsShowCommand], [runEC2Connect], [runEC2RDP], [runRDSConnect]
    and [runOpenSearchConnect] create a manager of package [aws], offer a
    re-authentication when that fails for want of a session, switch account
    when asked to, and run one operation. The package-level flag variables
    are the arguments of the functions; [os.Exit(1)] ends the run. *)

(** A manager object, by identity. *)
Definition Manager : Type := nat.

(** Go's conversion [int32(x)] of an [int]. *)
Definition int32 (x : Z) : Z := ((x + 2 ^ 31) mod 2 ^ 32 - 2 ^ 31)%Z.

Inductive CmdEvent : Type -> Type :=
| NewSecretsManager : CmdEvent (result Manager)
| NewEC2Manager : CmdEvent (result Manager)
| NewRDSManager : CmdEvent (result Manager)
| NewOpenSearchManager : CmdEvent (result Manager)
| PromptForReauth : CmdEvent (bool * option error)
| handleAccountSwitch : CmdEvent (option error)
| Flags_GetString (name : string) : CmdEvent string
| Flags_GetInt32 (name : string) : CmdEvent Z
| RunShowSecrets (manager : Manager) (secretName : string)
  : CmdEvent (option error)
| EC2_RunConnect (manager : Manager) (instanceId : string)
  : CmdEvent (option error)
| EC2_RunRDP (manager : Manager) (instanceId : string) (localPort : Z)
  : CmdEvent (option error)
| RDS_RunConnect (manager : Manager) (name : string) (localPort : Z)
  : CmdEvent (option error)
| OpenSearch_RunConnect (manager : Manager) (name : string) (localPort : Z)
  : CmdEvent (option error)
| cmd_Printf (text : string) : CmdEvent unit.

Inductive CmdEntry : Type :=
| CmdCalled (X : Type) (e : CmdEvent X) (answer : X).

Inductive CmdOutcome (A : Type) : Type :=
| Returned (a : A)      (* the function returned *)
| Exited (code : Z).    (* [os.Exit(code)] *)
Arguments Exited {A} code.

Record CmdRun (W A : Type) : Type := {
  cmd_outcome : CmdOutcome A;
  cmd_final : W;
  cmd_trace : list CmdEntry
}.

(** *** What a trace of a command shows *)

Definition is_create (c : CmdEntry) : bool :=
  match c with
  | CmdCalled NewSecretsManager _ | CmdCalled NewEC2Manager _
  | CmdCalled NewRDSManager _ | CmdCalled NewOpenSearchManager _ => true
  | _ => false
  end.

(** The answer of a call that creates a manager. *)
Definition creation (c : CmdEntry) : option (result Manager) :=
  match c with
  | CmdCalled e answer =>
      match e in CmdEvent X return X -> option (result Manager) with
      | NewSecretsManager | NewEC2Manager | NewRDSManager
      | NewOpenSearchManager => fun answer => Some answer
      | _ => fun _ => None
      end answer
  end.

(** The manager made by the last successful creation in [t], if any. *)
Definition last_created (t : list CmdEntry) : option Manager :=
  fold_left (fun latest c =>
               match creation c with
               | Some (Ok manager) => Some manager
               | _ => latest
               end) t None.

Definition is_prompt (c : CmdEntry) : bool :=
  match c with
  | CmdCalled PromptForReauth _ => true
  | _ => false
  end.

(** The prompt was answered with a refusal or an error. *)
Definition reauth_refused (c : CmdEntry) : bool :=
  match c with
  | CmdCalled e answer =>
      match e in CmdEvent X return X -> bool with
      | PromptForReauth =>
          fun answer => match answer with
                        | (_, Some _) => true
                        | (shouldReauth, None) => negb shouldReauth
                        end
      | _ => fun _ => false
      end answer
  end.

Definition is_switch (c : CmdEntry) : bool :=
  match c with
  | CmdCalled handleAccountSwitch _ => true
  | _ => false
  end.

(** The manager an operation was run on, and what it returned. *)
Definition operation (c : CmdEntry) : option (Manager * option error) :=
  match c with
  | CmdCalled e answer =>
      match e in CmdEvent X return X -> option (Manager * option error) with
      | RunShowSecrets m _ | EC2_RunConnect m _ | EC2_RunRDP m _ _
      | RDS_RunConnect m _ _ | OpenSearch_RunConnect m _ _ =>
          fun answer => Some (m, answer)
      | _ => fun _ => None
      end answer
  end.

Definition is_operation (c : CmdEntry) : bool :=
  match operation c with Some _ => true | None => false end.

(** The local port an operation was given. *)
Definition port_given (c : CmdEntry) : option Z :=
  match c with
  | CmdCalled (EC2_RunRDP _ _ port) _ | CmdCalled (RDS_RunConnect _ _ port) _
  | CmdCalled (OpenSearch_RunConnect _ _ port) _ => Some port
  | _ => None
  end.

Definition cmd_printed (c : CmdEntry) : option string :=
  match c with
  | CmdCalled (cmd_Printf text) _ => Some text
  | _ => None
  end.

Definition cmd_count (p : CmdEntry -> bool) (t : list CmdEntry) : nat :=
  List.length (filter p t).

Definition cmd_ends_with (t : list CmdEntry) (c : CmdEntry) : Prop :=
  exists before, t = (before ++ [c])%list.

(** The first call created a manager. *)
Definition started_with_manager (t : list CmdEntry) : bool :=
  match t with
  | c :: _ => match creation c with Some (Ok _) => true | _ => false end
  | [] => false
  end.

(** The error of the first call, when it failed to create a manager. *)
Definition first_error (t : list CmdEntry) : option error :=
  match t with
  | c :: _ => match creation c with Some (Err err) => Some err | _ => None end
  | [] => None
  end.

(** The prompt was answered with a completed re-authentication. *)
Definition reauth_accepted (c : CmdEntry) : bool :=
  is_prompt c && negb (reauth_refused c).

(** The account switch returned no error. *)
Definition switch_done (c : CmdEntry) : bool :=
  match c with
  | CmdCalled e answer =>
      match e in CmdEvent X return X -> bool with
      | handleAccountSwitch =>
          fun answer => match answer with None => true | Some _ => false end
      | _ => fun _ => false
      end answer
  end.

Definition is_print (c : CmdEntry) : bool :=
  match cmd_printed c with Some _ => true | None => false end.

Section Commands.

Variable World : Type.
Variable handle : forall X : Type, CmdEvent X -> World -> X * World.
(** [aws.IsAuthError], a test on the error. *)
Variable IsAuthError : error -> bool.

Definition C (A : Type) : Type := World -> CmdRun World A.

Definition cmd_ret (A : Type) (a : A) : C A :=
  fun w => {| cmd_outcome := Returned a; cmd_final := w; cmd_trace := [] |}.

Definition cmd_prepend (A : Type) (t : list CmdEntry) (r : CmdRun World A)
  : CmdRun World A :=
  {| cmd_outcome := cmd_outcome r; cmd_final := cmd_final r;
     cmd_trace := (t ++ cmd_trace r)%list |}.

Definition cmd_bind (A B : Type) (m : C A) (k : A -> C B) : C B :=
  fun w =>
    let r := m w in
    match cmd_outcome r with
    | Returned a => cmd_prepend (cmd_trace r) (k a (cmd_final r))
    | Exited code =>
        {| cmd_outcome := Exited code; cmd_final := cmd_final r;
           cmd_trace := cmd_trace r |}
    end.

Definition cmd_call (X : Type) (e : CmdEvent X) : C X :=
  fun w =>
    let (answer, w') := handle e w in
    {| cmd_outcome := Returned answer; cmd_final := w';
       cmd_trace := [CmdCalled e answer] |}.

(** [os.Exit(code)]. *)
Definition os_Exit (A : Type) (code : Z) : C A :=
  fun w => {| cmd_outcome := Exited code; cmd_final := w; cmd_trace := [] |}.

Arguments os_Exit {A} code.

Notation "x <- m ;; k" := (cmd_bind m (fun x => k))
  (at level 61, m at next level, right associativity).
Notation "m ;;; k" := (cmd_bind m (fun _ => k))
  (at level 61, right associativity).

(** [fmt.Printf(...); os.Exit(1)]. *)
Definition fail (A : Type) (text : string) : C A :=
  cmd_call (cmd_Printf text) ;;; os_Exit 1.

Arguments fail {A} text.

Definition runSecretsShowCommand (secretName : string)
    (secretsSwitchAccount : bool) : C unit :=
  created <- cmd_call NewSecretsManager ;;
  first <-
    match created with
    | Ok secretsManager => cmd_ret (secretsManager, false)
    | Err err =>
        if IsAuthError err then
          prompted <- cmd_call PromptForReauth ;;
          let '(shouldReauth, reAuthErr) := prompted in
          match reAuthErr with
          | Some reAuthErr =>
              fail ("Error during re-authentication: " ++ reAuthErr ++ nl)
          | None =>
              if negb shouldReauth
              then fail ("Authentication cancelled" ++ nl)
              else
                again <- cmd_call NewSecretsManager ;;
                match again with
                | Err err =>
                    fail ("Error creating secrets manager after re-authentication: "
                          ++ err ++ nl)
                | Ok secretsManager => cmd_ret (secretsManager, true)
                end
          end
        else fail ("Error creating secrets manager: " ++ err ++ nl)
    end ;;
  let '(secretsManager, justAuthenticated) := first in
  secretsManager <-
    (if secretsSwitchAccount && negb justAuthenticated
     then
       switched <- cmd_call handleAccountSwitch ;;
       match switched with
       | Some err => fail (err ++ nl)
       | None =>
           again <- cmd_call NewSecretsManager ;;
           match again with
           | Err err =>
               fail ("Error creating secrets manager after account switch: "
                     ++ err ++ nl)
           | Ok secretsManager => cmd_ret secretsManager
           end
       end
     else cmd_ret secretsManager) ;;
  failed <- cmd_call (RunShowSecrets secretsManager secretName) ;;
  match failed with
  | Some err => fail ("Error: " ++ err ++ nl)
  | None => cmd_ret tt
  end.

(** [createEC2Manager] only calls [aws.NewEC2Manager]. *)
Definition createEC2Manager : C (result Manager) := cmd_call NewEC2Manager.

Definition runEC2Connect (ec2SwitchAccount : bool) : C unit :=
  created <- createEC2Manager ;;
  first <-
    match created with
    | Ok ec2Manager => cmd_ret (ec2Manager, false)
    | Err err =>
        if IsAuthError err then
          prompted <- cmd_call PromptForReauth ;;
          let '(shouldReauth, reAuthErr) := prompted in
          match reAuthErr with
          | Some reAuthErr =>
              fail ("Error during re-authentication: " ++ reAuthErr ++ nl)
          | None =>
              if negb shouldReauth
              then fail ("Authentication cancelled" ++ nl)
              else
                again <- createEC2Manager ;;
                match again with
                | Err err =>
                    fail ("Error creating EC2 manager after re-authentication: "
                          ++ err ++ nl)
                | Ok ec2Manager => cmd_ret (ec2Manager, true)
                end
          end
        else fail ("Error creating EC2 manager: " ++ err ++ nl)
    end ;;
  let '(ec2Manager, justAuthenticated) := first in
  ec2Manager <-
    (if ec2SwitchAccount && negb justAuthenticated
     then
       switched <- cmd_call handleAccountSwitch ;;
       match switched with
       | Some err => fail (err ++ nl)
       | None =>
           again <- createEC2Manager ;;
           match again with
           | Err err =>
               fail ("Error creating EC2 manager after account switch: "
                     ++ err ++ nl)
           | Ok ec2Manager => cmd_ret ec2Manager
           end
       end
     else cmd_ret ec2Manager) ;;
  instanceIdFlag <- cmd_call (Flags_GetString "instance-id") ;;
  failed <- cmd_call (EC2_RunConnect ec2Manager instanceIdFlag) ;;
  match failed with
  | Some err => fail ("Error: " ++ err ++ nl)
  | None => cmd_ret tt
  end.

Definition runEC2RDP (ec2SwitchAccount : bool) : C unit :=
  created <- createEC2Manager ;;
  first <-
    match created with
    | Ok ec2Manager => cmd_ret (ec2Manager, false)
    | Err err =>
        if IsAuthError err then
          prompted <- cmd_call PromptForReauth ;;
          let '(shouldReauth, reAuthErr) := prompted in
          match reAuthErr with
          | Some reAuthErr =>
              fail ("Error during re-authentication: " ++ reAuthErr ++ nl)
          | None =>
              if negb shouldReauth
              then fail ("Authentication cancelled" ++ nl)
              else
                again <- createEC2Manager ;;
                match again with
                | Err err =>
                    fail ("Error creating EC2 manager after re-authentication: "
                          ++ err ++ nl)
                | Ok ec2Manager => cmd_ret (ec2Manager, true)
                end
          end
        else fail ("Error creating EC2 manager: " ++ err ++ nl)
    end ;;
  let '(ec2Manager, justAuthenticated) := first in
  ec2Manager <-
    (if ec2SwitchAccount && negb justAuthenticated
     then
       switched <- cmd_call handleAccountSwitch ;;
       match switched with
       | Some err => fail (err ++ nl)
       | None =>
           again <- createEC2Manager ;;
           match again with
           | Err err =>
               fail ("Error creating EC2 manager after account switch: "
                     ++ err ++ nl)
           | Ok ec2Manager => cmd_ret ec2Manager
           end
       end
     else cmd_ret ec2Manager) ;;
  instanceIdFlag <- cmd_call (Flags_GetString "instance-id") ;;
  localPortFlag <- cmd_call (Flags_GetInt32 "local-port") ;;
  failed <- cmd_call (EC2_RunRDP ec2Manager instanceIdFlag localPortFlag) ;;
  match failed with
  | Some err => fail ("Error: " ++ err ++ nl)
  | None => cmd_ret tt
  end.

Definition runRDSConnect (rdsInstanceName : string) (localPort : Z)
    (switchAccount : bool) : C unit :=
  created <- cmd_call NewRDSManager ;;
  first <-
    match created with
    | Ok rdsManager => cmd_ret (rdsManager, false)
    | Err err =>
        if IsAuthError err then
          prompted <- cmd_call PromptForReauth ;;
          let '(shouldReauth, reAuthErr) := prompted in
          match reAuthErr with
          | Some reAuthErr =>
              fail ("Error during re-authentication: " ++ reAuthErr ++ nl)
          | None =>
              if negb shouldReauth
              then fail ("Authentication cancelled" ++ nl)
              else
                again <- cmd_call NewRDSManager ;;
                match again with
                | Err err =>
                    fail ("Error creating RDS manager after re-authentication: "
                          ++ err ++ nl)
                | Ok rdsManager => cmd_ret (rdsManager, true)
                end
          end
        else fail ("Error creating RDS manager: " ++ err ++ nl)
    end ;;
  let '(rdsManager, justAuthenticated) := first in
  rdsManager <-
    (if switchAccount && negb justAuthenticated
     then
       switched <- cmd_call handleAccountSwitch ;;
       match switched with
       | Some err => fail (err ++ nl)
       | None =>
           again <- cmd_call NewRDSManager ;;
           match again with
           | Err err =>
               fail ("Error creating RDS manager after account switch: "
                     ++ err ++ nl)
           | Ok rdsManager => cmd_ret rdsManager
           end
       end
     else cmd_ret rdsManager) ;;
  failed <- cmd_call (RDS_RunConnect rdsManager rdsInstanceName
                        (int32 localPort)) ;;
  match failed with
  | Some err => fail ("Error: " ++ err ++ nl)
  | None => cmd_ret tt
  end.

Definition runOpenSearchConnect (opensearchDomainName : string)
    (opensearchLocalPort : Z) (opensearchSwitchAccount : bool) : C unit :=
  created <- cmd_call NewOpenSearchManager ;;
  first <-
    match created with
    | Ok opensearchManager => cmd_ret (opensearchManager, false)
    | Err err =>
        if IsAuthError err then
          prompted <- cmd_call PromptForReauth ;;
          let '(shouldReauth, reAuthErr) := prompted in
          match reAuthErr with
          | Some reAuthErr =>
              fail ("Error during re-authentication: " ++ reAuthErr ++ nl)
          | None =>
              if negb shouldReauth
              then fail ("Authentication cancelled" ++ nl)
              else
                again <- cmd_call NewOpenSearchManager ;;
                match again with
                | Err err =>
                    fail ("Error creating OpenSearch manager after re-authentication: "
                          ++ err ++ nl)
                | Ok opensearchManager => cmd_ret (opensearchManager, true)
                end
          end
        else fail ("Error creating OpenSearch manager: " ++ err ++ nl)
    end ;;
  let '(opensearchManager, justAuthenticated) := first in
  opensearchManager <-
    (if opensearchSwitchAccount && negb justAuthenticated
     then
       switched <- cmd_call handleAccountSwitch ;;
       match switched with
       | Some err => fail (err ++ nl)
       | None =>
           again <- cmd_call NewOpenSearchManager ;;
           match again with
           | Err err =>
               fail ("Error creating OpenSearch manager after account switch: "
                     ++ err ++ nl)
           | Ok opensearchManager => cmd_ret opensearchManager
           end
       end
     else cmd_ret opensearchManager) ;;
  failed <- cmd_call (OpenSearch_RunConnect opensearchManager
                        opensearchDomainName (int32 opensearchLocalPort)) ;;
  match failed with
  | Some err => fail ("Error: " ++ err ++ nl)
  | None => cmd_ret tt
  end.

(** The cobra commands whose [Run] field is one of these functions, each
    with the values of its flag variables. *)
Inductive Command : Type :=
| secretsShowCmd (secretName : string)
| ec2ConnectCmd
| ec2RdpCmd
| rdsConnectCmd (rdsInstanceName : string) (localPort : Z)
| opensearchConnectCmd (opensearchDomainName : string)
    (opensearchLocalPort : Z).

(** [c.Run(c, args)], with the value of the command's switch-account flag. *)
Definition Command_Run (c : Command) (switch : bool) : C unit :=
  match c with
  | secretsShowCmd secretName => runSecretsShowCommand secretName switch
  | ec2ConnectCmd => runEC2Connect switch
  | ec2RdpCmd => runEC2RDP switch
  | rdsConnectCmd rdsInstanceName localPort =>
      runRDSConnect rdsInstanceName localPort switch
  | opensearchConnectCmd opensearchDomainName opensearchLocalPort =>
      runOpenSearchConnect opensearchDomainName opensearchLocalPort switch
  end.

End Commands.

Arguments os_Exit {World A} code.
Arguments fail {World} handle {A} text.

(** *** A scripted world for the commands *)

Record CmdScript := {
  managers : list (result Manager);   (* answers of the creations, in order *)
  prompt : bool * option error;
  switched : option error;
  instance : string;
  rdpPort : Z;
  ran : option error
}.

Definition next_manager (s : CmdScript) : result Manager * CmdScript :=
  match managers s with
  | [] => (Err "no active session", s)
  | m :: rest =>
      (m, {| managers := rest; prompt := prompt s; switched := switched s;
             instance := instance s; rdpPort := rdpPort s; ran := ran s |})
  end.

Definition cmd_play (X : Type) (e : CmdEvent X) : CmdScript -> X * CmdScript :=
  match e in CmdEvent X return CmdScript -> X * CmdScript with
  | NewSecretsManager => next_manager
  | NewEC2Manager => next_manager
  | NewRDSManager => next_manager
  | NewOpenSearchManager => next_manager
  | PromptForReauth => fun s => (prompt s, s)
  | handleAccountSwitch => fun s => (switched s, s)
  | Flags_GetString _ => fun s => (instance s, s)
  | Flags_GetInt32 _ => fun s => (rdpPort s, s)
  | RunShowSecrets _ _ => fun s => (ran s, s)
  | EC2_RunConnect _ _ => fun s => (ran s, s)
  | EC2_RunRDP _ _ _ => fun s => (ran s, s)
  | RDS_RunConnect _ _ _ => fun s => (ran s, s)
  | OpenSearch_RunConnect _ _ _ => fun s => (ran s, s)
  | cmd_Printf _ => fun s => (tt, s)
  end.

Definition session_missing (err : error) : bool :=
  String.eqb err "no active session".

(** No session at first; the operator re-authenticates; the second
    creation gives manager 2. *)
Definition reauthenticated : CmdScript :=
  {| managers := [Err "no active session"; Ok 2; Ok 3];
     prompt := (true, None);
     switched := None;
     instance := "i-0abc";
     rdpPort := 3389;
     ran := None |}.

(** No session, and the operator declines to authenticate. *)
Definition declined : CmdScript :=
  {| managers := [Err "no active session"; Ok 2];
     prompt := (false, None);
     switched := None;
     instance := "i-0abc";
     rdpPort := 3389;
     ran := None |}.

(** A session is there: manager 1, then manager 2 after a switch. *)
Definition signed_in : CmdScript :=
  {| managers := [Ok 1; Ok 2];
     prompt := (true, None);
     switched := None;
     instance := "i-0abc";
     rdpPort := 3389;
     ran := None |}.

(** * Properties *)

(** ** The order on names *)

Lemma Ascii_compare_refl (a : ascii) : Ascii.compare a a = Eq.
Proof. unfold Ascii.compare. apply N.compare_refl. Qed.

Lemma String_compare_not_Gt_trans (x y z : string) :
  String.compare x y <> Gt -> String.compare y z <> Gt ->
  String.compare x z <> Gt.
Proof.
  revert y z. induction x as [|a x IH]; intros [|b y] [|c z]; simpl;
    try congruence.
  unfold Ascii.compare.
  destruct (N.compare_spec (N_of_ascii a) (N_of_ascii b)) as [Hab|Hab|Hab];
    destruct (N.compare_spec (N_of_ascii b) (N_of_ascii c)) as [Hbc|Hbc|Hbc];
    try congruence; intros Hxy Hyz.
  - rewrite Hab, Hbc, N.compare_refl. now apply IH with y.
  - rewrite Hab. apply N.compare_lt_iff in Hbc. now rewrite Hbc.
  - rewrite <- Hbc. apply N.compare_lt_iff in Hab. now rewrite Hab.
  - assert (H : (N_of_ascii a < N_of_ascii c)%N) by lia.
    apply N.compare_lt_iff in H. now rewrite H.
Qed.

Lemma String_ltb_false (x y : string) :
  String.ltb x y = false <-> String.compare y x <> Gt.
Proof.
  unfold String.ltb. rewrite (String.compare_antisym y x).
  destruct (String.compare x y); simpl; split; congruence.
Qed.

Lemma String_ltb_asym (x y : string) :
  String.ltb x y = true -> String.ltb y x = false.
Proof.
  unfold String.ltb. rewrite (String.compare_antisym x y).
  destruct (String.compare y x); simpl; congruence.
Qed.

Lemma String_ltb_negtrans (x y z : string) :
  String.ltb y x = false -> String.ltb z y = false -> String.ltb z x = false.
Proof.
  rewrite !String_ltb_false. intros Hxy Hyz.
  now apply String_compare_not_Gt_trans with y.
Qed.

Lemma lessAccount_order : StrictWeakOrder lessAccount.
Proof.
  split; unfold lessAccount; intros.
  - now apply String_ltb_asym.
  - now apply String_ltb_negtrans with (AccountName y).
Qed.

Lemma lessRole_order : StrictWeakOrder lessRole.
Proof.
  split; unfold lessRole; intros.
  - now apply String_ltb_asym.
  - now apply String_ltb_negtrans with (RoleName y).
Qed.

(** ** The two sorters meet the contract of [sort.Slice] *)

Section Sorting.

Variable A : Type.
Variable less : A -> A -> bool.
Hypothesis order : StrictWeakOrder less.

(** The reversed prefix is descending: nothing is less than a later
    element of it. *)
Let descending (l : list A) : Prop :=
  StronglySorted (fun x y => less x y = false) l.

Lemma insert_left_perm (x : A) (r : list A) :
  Permutation (x :: r) (insert_left less x r).
Proof.
  induction r as [|y r IH]; simpl; [reflexivity|].
  destruct (less x y); [|reflexivity].
  rewrite perm_swap. now constructor.
Qed.

Lemma insert_left_descending (x : A) (r : list A) :
  descending r -> descending (insert_left less x r).
Proof.
  unfold descending. induction r as [|y r IH]; simpl; intros Hr.
  - constructor; constructor.
  - inversion Hr as [|y' r' Hsorted Hall]; subst.
    destruct (less x y) eqn:Hxy.
    + constructor; [now apply IH|].
      eapply Permutation_Forall; [apply insert_left_perm|].
      constructor; [|assumption].
      now apply (swo_asym order).
    + constructor; [assumption|].
      constructor; [assumption|].
      eapply Forall_impl; [|exact Hall].
      intros z Hyz. simpl in Hyz.
      now apply (swo_negtrans order) with y.
Qed.

Lemma descending_rev (l : list A) : descending l -> ascending less (rev l).
Proof.
  unfold descending, ascending. induction l as [|x l IH]; simpl; intros Hl.
  - constructor.
  - inversion Hl as [|x' l' Hsorted Hall]; subst.
    specialize (IH Hsorted).
    assert (Hlast : Forall (fun y => less x y = false) (rev l))
      by (eapply Permutation_Forall; [apply Permutation_rev|exact Hall]).
    clear Hl Hsorted Hall.
    induction (rev l) as [|y t IHt]; simpl.
    + constructor; constructor.
    + inversion IH; subst. inversion Hlast; subst.
      constructor; [now apply IHt|].
      apply Forall_app. split; [assumption|].
      constructor; [assumption|constructor].
Qed.

Lemma insertion_loop_perm (r rest : list A) :
  Permutation (rev r ++ rest) (insertion_loop less r rest).
Proof.
  revert r. induction rest as [|x rest IH]; intros r; simpl.
  - now rewrite app_nil_r.
  - rewrite <- IH.
    rewrite <- (Permutation_rev (insert_left less x r)).
    rewrite <- insert_left_perm.
    rewrite <- (Permutation_rev r).
    symmetry. apply Permutation_middle.
Qed.

Lemma insertion_loop_ascending (r rest : list A) :
  descending r -> ascending less (insertion_loop less r rest).
Proof.
  revert r. induction rest as [|x rest IH]; intros r Hr; simpl.
  - now apply descending_rev.
  - apply IH. now apply insert_left_descending.
Qed.

End Sorting.

Lemma insertionSort_contract : sort_Slice_contract insertionSort.
Proof.
  intros A less l Horder. unfold insertionSort. split.
  - apply (insertion_loop_perm less [] l).
  - apply insertion_loop_ascending; [assumption|constructor].
Qed.


(** ** Runs *)

Section Runs.

Variable World : Type.
Variable handle : forall X : Type, Event X -> World -> X * World.

(** One request of the pagination loop, unfolded. *)
Lemma ListAccounts_loop_step (fuel : nat) (accessToken : string)
    (allAccounts : list AccountInfo) (nextToken : option string) (w : World) :
  ListAccounts_loop handle (S fuel) accessToken allAccounts nextToken w
  = bind (call handle (client_ListAccounts accessToken nextToken))
      (fun r =>
         match r with
         | Err err => ret ([], Some err)
         | Ok result =>
             match AccountsNextToken result with
             | None => ret ((allAccounts ++ AccountList result)%list, None)
             | Some t =>
                 ListAccounts_loop handle fuel accessToken
                   (allAccounts ++ AccountList result)%list (Some t)
             end
         end) w.
Proof. reflexivity. Qed.

Lemma ListRoles_loop_step (fuel : nat) (accessToken accountId : string)
    (allRoles : list RoleInfo) (nextToken : option string) (w : World) :
  ListRoles_loop handle (S fuel) accessToken accountId allRoles nextToken w
  = bind (call handle (client_ListAccountRoles accessToken accountId nextToken))
      (fun r =>
         match r with
         | Err err => ret ([], Some err)
         | Ok result =>
             match RolesNextToken result with
             | None => ret ((allRoles ++ RoleList result)%list, None)
             | Some t =>
                 ListRoles_loop handle fuel accessToken accountId
                   (allRoles ++ RoleList result)%list (Some t)
             end
         end) w.
Proof. reflexivity. Qed.

Lemma ListAccounts_loop_serves accessToken cursor w pages w' :
  serves_accounts handle accessToken cursor w pages w' ->
  forall (fuel : nat) (allAccounts : list AccountInfo),
    List.length pages <= fuel ->
    outcome (ListAccounts_loop handle fuel accessToken allAccounts cursor w)
    = Done ((allAccounts ++ concat pages)%list, None)
    /\ final (ListAccounts_loop handle fuel accessToken allAccounts cursor w)
       = w'.
Proof.
  induction 1 as [cursor w page w' Hcall
                 |cursor w page next w1 pages w' Hcall _ IH];
    intros [|fuel] allAccounts Hfuel; simpl in Hfuel; try lia;
    rewrite ListAccounts_loop_step; unfold bind, call; rewrite Hcall;
    cbn [outcome final prepend AccountsNextToken AccountList concat].
  - rewrite app_nil_r. split; reflexivity.
  - destruct (IH fuel (allAccounts ++ page)%list) as [Hout Hfin]; [lia|].
    rewrite Hout, Hfin, <- app_assoc. split; reflexivity.
Qed.

Lemma ListRoles_loop_serves accessToken accountId cursor w pages w' :
  serves_roles handle accessToken accountId cursor w pages w' ->
  forall (fuel : nat) (allRoles : list RoleInfo),
    List.length pages <= fuel ->
    outcome (ListRoles_loop handle fuel accessToken accountId allRoles cursor w)
    = Done ((allRoles ++ concat pages)%list, None)
    /\ final (ListRoles_loop handle fuel accessToken accountId allRoles cursor w)
       = w'.
Proof.
  induction 1 as [cursor w page w' Hcall
                 |cursor w page next w1 pages w' Hcall _ IH];
    intros [|fuel] allRoles Hfuel; simpl in Hfuel; try lia;
    rewrite ListRoles_loop_step; unfold bind, call; rewrite Hcall;
    cbn [outcome final prepend RolesNextToken RoleList concat].
  - rewrite app_nil_r. split; reflexivity.
  - destruct (IH fuel (allRoles ++ page)%list) as [Hout Hfin]; [lia|].
    rewrite Hout, Hfin, <- app_assoc. split; reflexivity.
Qed.

Lemma ListAccounts_loop_fails accessToken cursor w pages err w' :
  fails_accounts handle accessToken cursor w pages err w' ->
  forall (fuel : nat) (allAccounts : list AccountInfo),
    List.length pages < fuel ->
    outcome (ListAccounts_loop handle fuel accessToken allAccounts cursor w)
    = Done ([], Some err)
    /\ final (ListAccounts_loop handle fuel accessToken allAccounts cursor w)
       = w'.
Proof.
  induction 1 as [cursor w err w' Hcall
                 |cursor w page next w1 pages err w' Hcall _ IH];
    intros [|fuel] allAccounts Hfuel; simpl in Hfuel; try lia;
    rewrite ListAccounts_loop_step; unfold bind, call; rewrite Hcall;
    cbn [outcome final prepend AccountsNextToken AccountList].
  - split; reflexivity.
  - destruct (IH fuel (allAccounts ++ page)%list) as [Hout Hfin]; [lia|].
    rewrite Hout, Hfin. split; reflexivity.
Qed.

Lemma ListRoles_loop_fails accessToken accountId cursor w pages err w' :
  fails_roles handle accessToken accountId cursor w pages err w' ->
  forall (fuel : nat) (allRoles : list RoleInfo),
    List.length pages < fuel ->
    outcome (ListRoles_loop handle fuel accessToken accountId allRoles cursor w)
    = Done ([], Some err)
    /\ final (ListRoles_loop handle fuel accessToken accountId allRoles cursor w)
       = w'.
Proof.
  induction 1 as [cursor w err w' Hcall
                 |cursor w page next w1 pages err w' Hcall _ IH];
    intros [|fuel] allRoles Hfuel; simpl in Hfuel; try lia;
    rewrite ListRoles_loop_step; unfold bind, call; rewrite Hcall;
    cbn [outcome final prepend RolesNextToken RoleList].
  - split; reflexivity.
  - destruct (IH fuel (allRoles ++ page)%list) as [Hout Hfin]; [lia|].
    rewrite Hout, Hfin. split; reflexivity.
Qed.

End Runs.

(** ** Symbolic execution of a run *)

Section Execution.

Variable World : Type.
Variable handle : forall X : Type, Event X -> World -> X * World.

Lemma bind_bind (A B C : Type) (m : M World A) (k1 : A -> M World B)
    (k2 : B -> M World C) (w : World) :
  bind (bind m k1) k2 w = bind m (fun a => bind (k1 a) k2) w.
Proof.
  unfold bind. destruct (m w) as [[a| |] w1 t1]; cbn; try reflexivity.
  destruct (k1 a w1) as [[b| |] w2 t2]; cbn; try reflexivity.
  unfold prepend; cbn. now rewrite app_assoc.
Qed.

Lemma bind_call (X B : Type) (e : Event X) (k : X -> M World B) (w : World) :
  bind (call handle e) k w
  = prepend [Called e (fst (handle e w))]
      (k (fst (handle e w)) (snd (handle e w))).
Proof. unfold bind, call. now destruct (handle e w). Qed.

Lemma run_call (X : Type) (e : Event X) (w : World) :
  call handle e w
  = {| outcome := Done (fst (handle e w)); final := snd (handle e w);
       trace := [Called e (fst (handle e w))] |}.
Proof. unfold call. now destruct (handle e w). Qed.

Lemma bind_ret (A B : Type) (a : A) (k : A -> M World B) (w : World) :
  bind (ret a) k w = prepend [] (k a w).
Proof. reflexivity. Qed.

Lemma bind_panic (A B : Type) (msg : string) (k : A -> M World B) (w : World) :
  bind (panic msg) k w
  = {| outcome := Panicked msg; final := w; trace := [] |}.
Proof. reflexivity. Qed.

Lemma bind_run (A B : Type) (m : M World A) (k : A -> M World B) (w : World) :
  bind m k w
  = match outcome (m w) with
    | Done a => prepend (trace (m w)) (k a (final (m w)))
    | Panicked msg =>
        {| outcome := Panicked msg; final := final (m w); trace := trace (m w) |}
    | OutOfFuel =>
        {| outcome := OutOfFuel; final := final (m w); trace := trace (m w) |}
    end.
Proof. reflexivity. Qed.

Lemma ListRoles_loop_trace (fuel : nat) accessToken accountId allRoles cursor w :
  Forall (fun c => roles_request c = true)
    (trace (ListRoles_loop handle fuel accessToken accountId allRoles cursor w)).
Proof.
  revert allRoles cursor w. induction fuel as [|fuel IH]; intros; [constructor|].
  rewrite ListRoles_loop_step, bind_call.
  destruct (handle _ w) as [[result|err] w1]; cbn [fst snd].
  - destruct (RolesNextToken result); cbn [ret prepend trace app].
    + constructor; [reflexivity|]. apply IH.
    + repeat constructor.
  - repeat constructor.
Qed.

Lemma ListAccounts_loop_trace (fuel : nat) accessToken allAccounts cursor w :
  Forall (fun c => accounts_request c = true)
    (trace (ListAccounts_loop handle fuel accessToken allAccounts cursor w)).
Proof.
  revert allAccounts cursor w. induction fuel as [|fuel IH]; intros; [constructor|].
  rewrite ListAccounts_loop_step, bind_call.
  destruct (handle _ w) as [[result|err] w1]; cbn [fst snd].
  - destruct (AccountsNextToken result); cbn [ret prepend trace app].
    + constructor; [reflexivity|]. apply IH.
    + repeat constructor.
  - repeat constructor.
Qed.

Lemma ListRoles_trace (fuel : nat) accessToken accountId w :
  Forall (fun c => roles_request c = true)
    (trace (ListRoles handle fuel accessToken accountId w)).
Proof. apply ListRoles_loop_trace. Qed.

Lemma ListAccounts_trace (fuel : nat) accessToken w :
  Forall (fun c => accounts_request c = true)
    (trace (ListAccounts handle fuel accessToken w)).
Proof. apply ListAccounts_loop_trace. Qed.

(** Only the first request of a [ListAccounts] call has no cursor. *)
Lemma ListAccounts_loop_continues (fuel : nat) accessToken allAccounts next w :
  filter is_listing_start
    (trace (ListAccounts_loop handle fuel accessToken allAccounts (Some next) w))
  = [].
Proof.
  revert allAccounts next w. induction fuel as [|fuel IH]; intros; [reflexivity|].
  rewrite ListAccounts_loop_step, bind_call.
  destruct (handle _ w) as [[result|err] w1]; cbn [fst snd]; [|reflexivity].
  destruct (AccountsNextToken result);
    cbn [ret prepend trace app filter is_listing_start]; [|reflexivity].
  apply IH.
Qed.

Lemma ListAccounts_starts (fuel : nat) accessToken w :
  count is_listing_start (trace (ListAccounts handle fuel accessToken w))
  = match fuel with O => 0 | S _ => 1 end.
Proof.
  unfold ListAccounts, count. destruct fuel as [|fuel]; [reflexivity|].
  rewrite ListAccounts_loop_step, bind_call.
  destruct (handle _ w) as [[result|err] w1]; cbn [fst snd]; [|reflexivity].
  destruct (AccountsNextToken result);
    cbn [ret prepend trace app filter is_listing_start List.length];
    [|reflexivity].
  now rewrite ListAccounts_loop_continues.
Qed.

End Execution.

(** One step of a run: the head of the program is put in sequence, then a
    call is answered, a returned value passed on, or a test decided. *)
Ltac exec_head :=
  rewrite ?bind_bind;
  match goal with
  | |- context [bind (call ?h ?e) ?k ?w] =>
      rewrite (bind_call h e k w);
      let a := fresh "answer" in
      let w' := fresh "w" in
      destruct (h _ e w) as [a w'] eqn:?;
      cbn [fst snd]; cbn beta
  | |- context [bind (ret ?a) ?k ?w] =>
      rewrite (bind_ret a k w); cbn beta
  | |- context [bind (panic ?msg) ?k ?w] =>
      rewrite (bind_panic msg k w)
  | |- context [bind (ListRoles ?h ?f ?t ?i) ?k ?w] =>
      rewrite (bind_run (ListRoles h f t i) k w);
      let H := fresh "Hrequests" in
      pose proof (ListRoles_trace h f t i w) as H;
      let o := fresh "listed" in
      let w' := fresh "w" in
      let tr := fresh "requests" in
      destruct (ListRoles h f t i w) as [o w' tr];
      cbn [outcome final trace] in H |- *;
      destruct o as [[? ?]| |]; cbn [fst snd]; cbn beta
  | |- context [bind (ListAccounts ?h ?f ?t) ?k ?w] =>
      rewrite (bind_run (ListAccounts h f t) k w);
      let H := fresh "Hrequests" in
      pose proof (ListAccounts_trace h f t w) as H;
      let H' := fresh "Hstarts" in
      pose proof (ListAccounts_starts h f t w) as H';
      let o := fresh "listed" in
      let w' := fresh "w" in
      let tr := fresh "requests" in
      destruct (ListAccounts h f t w) as [o w' tr] eqn:?;
      cbn [outcome final trace] in H, H' |- *;
      destruct o as [[? ?]| |]; cbn [fst snd]; cbn beta
  | |- context [call ?h ?e ?w] =>
      rewrite (run_call h e w);
      let a := fresh "answer" in
      let w' := fresh "w" in
      destruct (h _ e w) as [a w'] eqn:?;
      cbn [fst snd]
  | |- context [bind (if ?b then _ else _) _ _] => destruct b eqn:?
  | |- context [bind (match ?x with _ => _ end) _ _] => destruct x eqn:?
  | |- context [(if ?b then _ else _) ?w] =>
      lazymatch type of w with _ => destruct b eqn:? end
  | |- context [(match ?x with _ => _ end) ?w] => destruct x eqn:?
  end.

Ltac exec := repeat exec_head.


(** ** Facts on lists used below *)




Lemma find_exists (A : Type) (p : A -> bool) (l : list A) (x : A) :
  In x l -> p x = true -> exists y, find p l = Some y.
Proof.
  intros Hin Hp. destruct (find p l) as [y|] eqn:Hfind; [now exists y|].
  now rewrite (find_none p l Hfind x Hin) in Hp.
Qed.


(** ** The sort before selection *)




(** ** Directory listing *)

(** C4. Whatever pages the provider serves, [ListAccounts] (and
    [ListRoles]) returns their contents concatenated in page order, with no
    error; two pagings of the same items give the same result. *)
Theorem listing_concatenates_pages
    (World : Type) (handle : forall X : Type, Event X -> World -> X * World)
    (fuel fuel' : nat) (accessToken accessToken' accountId accountId' : string)
    (w w1 v v1 : World) (pages pages' : list (list AccountInfo))
    (x x1 y y1 : World) (rolePages rolePages' : list (list RoleInfo)) :
  serves_accounts handle accessToken None w pages w1 ->
  serves_accounts handle accessToken' None v pages' v1 ->
  concat pages = concat pages' ->
  serves_roles handle accessToken accountId None x rolePages x1 ->
  serves_roles handle accessToken' accountId' None y rolePages' y1 ->
  concat rolePages = concat rolePages' ->
  List.length pages <= fuel -> List.length rolePages <= fuel ->
  List.length pages' <= fuel' -> List.length rolePages' <= fuel' ->
  (outcome (ListAccounts handle fuel accessToken w) = Done (concat pages, None)
   /\ outcome (ListAccounts handle fuel' accessToken' v)
      = outcome (ListAccounts handle fuel accessToken w))
  /\ (outcome (ListRoles handle fuel accessToken accountId x)
      = Done (concat rolePages, None)
      /\ outcome (ListRoles handle fuel' accessToken' accountId' y)
         = outcome (ListRoles handle fuel accessToken accountId x)).
Proof.
  intros Hp Hp' Hsame Hr Hr' Hsame' Hf1 Hf2 Hf3 Hf4.
  destruct (ListAccounts_loop_serves Hp [] Hf1) as [H1 _].
  destruct (ListAccounts_loop_serves Hp' [] Hf3) as [H2 _].
  destruct (ListRoles_loop_serves Hr [] Hf2) as [H3 _].
  destruct (ListRoles_loop_serves Hr' [] Hf4) as [H4 _].
  unfold ListAccounts, ListRoles.
  rewrite H1, H2, H3, H4. simpl. rewrite Hsame, Hsame'. repeat split.
Qed.

Lemma listing_concatenates_pages_witness :
  (outcome (ListAccounts play 2 "two" demo) = Done ([Prod; Dev], None)
   /\ outcome (ListAccounts play 1 "one" demo)
      = outcome (ListAccounts play 2 "two" demo))
  /\ (outcome (ListRoles play 2 "two" "111" demo) = Done ([ReadOnly; Admin], None)
      /\ outcome (ListRoles play 1 "one" "111" demo)
         = outcome (ListRoles play 2 "two" "111" demo)).
Proof.
  apply (@listing_concatenates_pages Script play 2 1 "two" "one" "111" "111"
           demo demo demo demo [[Prod]; [Dev]] [[Prod; Dev]]
           demo demo demo demo [[ReadOnly]; [Admin]] [[ReadOnly; Admin]]).
  - eapply serves_accounts_more; [reflexivity|].
    apply serves_accounts_last. reflexivity.
  - apply serves_accounts_last. reflexivity.
  - reflexivity.
  - eapply serves_roles_more; [reflexivity|].
    apply serves_roles_last. reflexivity.
  - apply serves_roles_last. reflexivity.
  - reflexivity.
  - simpl; lia.
  - simpl; lia.
  - simpl; lia.
  - simpl; lia.
Defined.

(** C6. When a page fetch fails, [ListAccounts] (and [ListRoles]) returns
    that error and no item at all: the pages fetched before it are dropped. *)
Theorem listing_failure_discards_pages
    (World : Type) (handle : forall X : Type, Event X -> World -> X * World)
    (fuel : nat) (accessToken accountId : string)
    (w w1 : World) (pages : list (list AccountInfo)) (err : error)
    (x x1 : World) (rolePages : list (list RoleInfo)) (err' : error) :
  fails_accounts handle accessToken None w pages err w1 ->
  fails_roles handle accessToken accountId None x rolePages err' x1 ->
  List.length pages < fuel -> List.length rolePages < fuel ->
  outcome (ListAccounts handle fuel accessToken w) = Done ([], Some err)
  /\ outcome (ListRoles handle fuel accessToken accountId x)
     = Done ([], Some err').
Proof.
  intros Ha Hr Hf1 Hf2.
  destruct (ListAccounts_loop_fails Ha [] Hf1) as [H1 _].
  destruct (ListRoles_loop_fails Hr [] Hf2) as [H2 _].
  now split.
Qed.

Lemma listing_failure_discards_pages_witness :
  outcome (ListAccounts play 2 "expiring" broken) = Done ([], Some "throttled")
  /\ outcome (ListRoles play 2 "expiring" "111" broken)
     = Done ([], Some "throttled").
Proof.
  apply (@listing_failure_discards_pages Script play 2 "expiring" "111"
           broken broken [[Prod]] "throttled"
           broken broken [[ReadOnly]] "throttled").
  - eapply fails_accounts_later; [reflexivity|].
    apply fails_accounts_now. reflexivity.
  - eapply fails_roles_later; [reflexivity|].
    apply fails_roles_now. reflexivity.
  - simpl; lia.
  - simpl; lia.
Defined.

(** ** Selection *)

Section Selection.

Variable World : Type.
Variable handle : forall X : Type, Event X -> World -> X * World.
Variable sort_Slice : SliceSorter.
Variable EqualFold : string -> string -> bool.
Hypothesis sorts : sort_Slice_contract sort_Slice.

Lemma sorted_accounts_In (accounts : list AccountInfo) (a : AccountInfo) :
  In a (sort_Slice lessAccount accounts) <-> In a accounts.
Proof.
  pose proof sorts as Hsorts.
  destruct (Hsorts _ lessAccount accounts lessAccount_order) as [Hperm _].
  split; intros Hin.
  - now apply (Permutation_in _ (Permutation_sym Hperm)).
  - now apply (Permutation_in _ Hperm).
Qed.

Lemma sorted_roles_In (roles : list RoleInfo) (r : RoleInfo) :
  In r (sort_Slice lessRole roles) <-> In r roles.
Proof.
  pose proof sorts as Hsorts.
  destruct (Hsorts _ lessRole roles lessRole_order) as [Hperm _].
  split; intros Hin.
  - now apply (Permutation_in _ (Permutation_sym Hperm)).
  - now apply (Permutation_in _ Hperm).
Qed.

(** The account scan finds a match: the run is two lines of output. *)
Lemma selectAccount_found accounts accountName account w :
  accountName <> "" ->
  firstFold EqualFold AccountName accountName (sort_Slice lessAccount accounts)
  = Some account ->
  outcome (selectAccount handle sort_Slice EqualFold accounts accountName w)
  = Done (Ok account)
  /\ filter is_RunSelector
       (trace (selectAccount handle sort_Slice EqualFold accounts accountName w))
     = [].
Proof.
  intros Hhint Hfind. unfold selectAccount.
  apply String.eqb_neq in Hhint. rewrite Hhint, Hfind.
  exec. split; reflexivity.
Qed.

Lemma selectRole_found selectedAccount roles roleName role w :
  roleName <> "" ->
  firstFold EqualFold RoleName roleName (sort_Slice lessRole roles)
  = Some role ->
  outcome (selectRole handle sort_Slice EqualFold selectedAccount roles
             roleName w)
  = Done (Ok role)
  /\ filter is_RunSelector
       (trace (selectRole handle sort_Slice EqualFold selectedAccount roles
                 roleName w))
     = [].
Proof.
  intros Hhint Hfind. unfold selectRole.
  apply String.eqb_neq in Hhint. rewrite Hhint, Hfind.
  exec. split; reflexivity.
Qed.

End Selection.

(** C1. With a non-empty hint that matches, case-insensitively, the name of
    some candidate, account selection (and role selection alike) returns a
    matching candidate, the first one in the sorted list and the only one
    when a single candidate matches, and the chooser is never called. *)
Theorem exact_match_skips_chooser
    (World : Type) (handle : forall X : Type, Event X -> World -> X * World)
    (sort_Slice : SliceSorter) (EqualFold : string -> string -> bool)
    (accounts : list AccountInfo) (accountName : string) (account : AccountInfo)
    (selectedAccount : AccountInfo) (roles : list RoleInfo) (roleName : string)
    (role : RoleInfo) (w w' : World) :
  sort_Slice_contract sort_Slice ->
  accountName <> "" -> In account accounts ->
  EqualFold (AccountName account) accountName = true ->
  roleName <> "" -> In role roles ->
  EqualFold (RoleName role) roleName = true ->
  (exists a,
      In a accounts /\ EqualFold (AccountName a) accountName = true
      /\ firstFold EqualFold AccountName accountName
           (sort_Slice _ lessAccount accounts) = Some a
      /\ ((forall b, In b accounts ->
                     EqualFold (AccountName b) accountName = true ->
                     b = account) -> a = account)
      /\ outcome (selectAccount handle sort_Slice EqualFold accounts
                    accountName w) = Done (Ok a)
      /\ filter is_RunSelector
           (trace (selectAccount handle sort_Slice EqualFold accounts
                     accountName w)) = [])
  /\ (exists r,
         In r roles /\ EqualFold (RoleName r) roleName = true
         /\ firstFold EqualFold RoleName roleName
              (sort_Slice _ lessRole roles) = Some r
         /\ ((forall b, In b roles ->
                        EqualFold (RoleName b) roleName = true ->
                        b = role) -> r = role)
         /\ outcome (selectRole handle sort_Slice EqualFold selectedAccount
                       roles roleName w') = Done (Ok r)
         /\ filter is_RunSelector
              (trace (selectRole handle sort_Slice EqualFold selectedAccount
                        roles roleName w')) = []).
Proof.
  intros Hsort Ha Hina Hma Hr Hinr Hmr. split.
  - destruct (find_exists (fun x => EqualFold (AccountName x) accountName)
                (sort_Slice _ lessAccount accounts) account) as [a Hfind];
      [now apply sorted_accounts_In|assumption|].
    destruct (find_some _ _ Hfind) as [Hin Hmatch].
    apply (proj1 (@sorted_accounts_In sort_Slice Hsort accounts a)) in Hin.
    destruct (selectAccount_found handle sort_Slice EqualFold
                accounts w Ha Hfind) as [Hout Htrace].
    exists a. repeat split; auto.
  - destruct (find_exists (fun x => EqualFold (RoleName x) roleName)
                (sort_Slice _ lessRole roles) role) as [r Hfind];
      [now apply sorted_roles_In|assumption|].
    destruct (find_some _ _ Hfind) as [Hin Hmatch].
    apply (proj1 (@sorted_roles_In sort_Slice Hsort roles r)) in Hin.
    destruct (selectRole_found handle sort_Slice EqualFold selectedAccount
                roles w' Hr Hfind) as [Hout Htrace].
    exists r. repeat split; auto.
Qed.

Lemma exact_match_skips_chooser_witness :
  (outcome (selectAccount play insertionSort EqualFold_ascii [Prod; Dev]
              "dev" demo) = Done (Ok Dev)
   /\ filter is_RunSelector
        (trace (selectAccount play insertionSort EqualFold_ascii [Prod; Dev]
                  "dev" demo)) = [])
  /\ (outcome (selectRole play insertionSort EqualFold_ascii Dev
                 [ReadOnly; Admin] "admin" demo) = Done (Ok Admin)
      /\ filter is_RunSelector
           (trace (selectRole play insertionSort EqualFold_ascii Dev
                     [ReadOnly; Admin] "admin" demo)) = []).
Proof.
  destruct (@exact_match_skips_chooser Script play insertionSort
              EqualFold_ascii [Prod; Dev] "dev" Dev Dev [ReadOnly; Admin]
              "admin" Admin demo demo)
    as [[a (_ & _ & _ & Ha & Hout & Htrace)]
        [r (_ & _ & _ & Hr & Hout' & Htrace')]].
  - exact insertionSort_contract.
  - discriminate.
  - simpl; auto.
  - reflexivity.
  - discriminate.
  - simpl; auto.
  - reflexivity.
  - rewrite Ha in Hout.
    + rewrite Hr in Hout'.
      * repeat split; assumption.
      * intros b [<-|[<-|[]]] Hb; [discriminate Hb|reflexivity].
    + intros b [<-|[<-|[]]] Hb; [discriminate Hb|reflexivity].
Defined.

Section Chooser.

Variable World : Type.
Variable handle : forall X : Type, Event X -> World -> X * World.
Variable sort_Slice : SliceSorter.
Variable EqualFold : string -> string -> bool.



End Chooser.



(** The scenario of the specification: with no role hint the chooser is
    shown Admin, ReadOnly; answering 0 selects Admin. *)
Example chooser_shown_sorted_roles :
  filter is_RunSelector
    (trace (selectRole play insertionSort EqualFold_ascii Dev
              [ReadOnly; Admin] "" (with_choices demo [Ok 0%Z])))
  = [Called (RunSelector "Select role for Dev:" ["Admin"; "ReadOnly"]) (Ok 0%Z)]
  /\ outcome (selectRole play insertionSort EqualFold_ascii Dev
                [ReadOnly; Admin] "" (with_choices demo [Ok 0%Z]))
     = Done (Ok Admin).
Proof. split; reflexivity. Qed.

(** ** Runs of [handleAccountRoleSelection] *)

Lemma roles_request_kind (c : Entry) :
  roles_request c = true ->
  selection_call c = true /\ no_selection c = false
  /\ session_error c = None /\ is_CleanupStaleSessions c = false
  /\ profile_written c = false.
Proof. destruct c as [X e answer]; destruct e; simpl; intros; try discriminate; auto. Qed.

(** Case analysis on the place of a call in a trace. *)
Ltac locate H :=
  repeat match type of H with
         | In _ (_ :: _) => destruct H as [<-|H]
         | In _ (_ ++ _)%list =>
             apply in_app_or in H; destruct H as [H|H]
         | In _ [] => destruct H
         end.

Ltac by_kind :=
  match goal with
  | Hall : Forall (fun c => roles_request c = true) ?t, Hin : In ?c ?t |- _ =>
      let K := fresh "K" in
      pose proof (roles_request_kind c
                    (proj1 (Forall_forall _ t) Hall c Hin))
        as (? & ? & ? & ? & ?);
      congruence
  end.

Lemma ends_with_one (c : Entry) : ends_with [c] c.
Proof. now exists []. Qed.

Lemma ends_with_cons (x c : Entry) (t : list Entry) :
  ends_with t c -> ends_with (x :: t) c.
Proof. intros [before ->]. now exists (x :: before). Qed.

Lemma ends_with_app (c : Entry) (l t : list Entry) :
  ends_with t c -> ends_with (l ++ t) c.
Proof. intros [before ->]. exists (l ++ before)%list. now rewrite app_assoc. Qed.

Ltac ends_here :=
  repeat first [ apply ends_with_one | apply ends_with_cons
               | apply ends_with_app ].

Ltac all_calls :=
  repeat first
    [ apply Forall_nil
    | apply Forall_cons; [reflexivity|]
    | apply Forall_app; split
    | eapply Forall_impl; [|eassumption];
      let K := fresh "K" in
      intros ? K; apply roles_request_kind in K; tauto ].

Ltac some_call :=
  cbn [existsb]; rewrite ?existsb_app;
  cbn [existsb profile_written orb]; rewrite ?orb_true_r; reflexivity.

Ltac stops_with_error := split; [eexists; reflexivity|ends_here].

Ltac stops_after_profile := split; [reflexivity|split; [ends_here|some_call]].

Section SelectionRuns.

Variable World : Type.
Variable handle : forall X : Type, Event X -> World -> X * World.
Variable sort_Slice : SliceSorter.
Variable EqualFold : string -> string -> bool.

Lemma handleAccountRoleSelection_run (fuel : nat) accessToken accounts
    accountName roleName w :
  selection_run
    (handleAccountRoleSelection handle sort_Slice EqualFold fuel accessToken
       accounts accountName roleName w).
Proof.
  unfold handleAccountRoleSelection, selectAccount, selectRole, materialize,
    GetRoleCredentials, index.
  exec.
  all: split; cbn [outcome final trace prepend ret panic out_of_fuel app].
  all: try solve [all_calls].
  all: try solve [intros H; simpl in H; congruence].
  all: try solve [intros c Hin Hc; locate Hin; try by_kind;
                  cbn in Hc; try congruence;
                  first [reflexivity | stops_with_error]].
  all: intros c err Hin Hc; locate Hin; try by_kind;
    cbn in Hc; try congruence;
    injection Hc as ->; stops_after_profile.
Qed.

End SelectionRuns.

(** ** Runs of [RunLogin] *)

Lemma accounts_request_kind (c : Entry) :
  accounts_request c = true -> login_call c = true.
Proof. destruct c as [X e answer]; destruct e; simpl; congruence. Qed.

Lemma cleanup_error_kind (c : Entry) (err : error) :
  cleanup_error c = Some err -> is_CleanupStaleSessions c = true.
Proof. destruct c as [X e answer]; destruct e; simpl; congruence. Qed.

Ltac login_calls :=
  repeat first
    [ apply Forall_nil
    | apply Forall_cons; [reflexivity|]
    | apply Forall_app; split
    | eapply Forall_impl; [|eassumption];
      let K := fresh "K" in
      intros ? K; apply accounts_request_kind in K; exact K ].

(** A step of a run of [RunLogin]: as [exec_head], with the run of
    [handleAccountRoleSelection] taken as a whole. *)
Ltac exec_login_head :=
  first
    [ exec_head
    | rewrite ?bind_bind;
      match goal with
      | |- context [bind (handleAccountRoleSelection ?h ?s ?E ?f ?t ?a ?an ?rn)
                      ?k ?w] =>
          rewrite (bind_run (handleAccountRoleSelection h s E f t a an rn) k w);
          let H := fresh "Hselection" in
          pose proof (handleAccountRoleSelection_run h s E f t a an rn w) as H;
          let o := fresh "returned" in
          let w' := fresh "w" in
          let tr := fresh "selection" in
          destruct (handleAccountRoleSelection h s E f t a an rn w)
            as [o w' tr];
          cbn [outcome final trace] in H |- *;
          destruct o as [?| |]; cbn beta
      | |- context [handleAccountRoleSelection ?h ?s ?E ?f ?t ?a ?an ?rn ?w] =>
          let H := fresh "Hselection" in
          pose proof (handleAccountRoleSelection_run h s E f t a an rn w) as H;
          let o := fresh "returned" in
          let w' := fresh "w" in
          let tr := fresh "selection" in
          destruct (handleAccountRoleSelection h s E f t a an rn w)
            as [o w' tr]
      end ].

Ltac exec_login := repeat exec_login_head.

Lemma split_here (sel : list Entry) : sel = ([] ++ sel)%list.
Proof. reflexivity. Qed.

Lemma split_cons (x : Entry) (t before sel : list Entry) :
  t = (before ++ sel)%list -> x :: t = ((x :: before) ++ sel)%list.
Proof. now intros ->. Qed.

Lemma split_app (l t before sel : list Entry) :
  t = (before ++ sel)%list -> (l ++ t)%list = ((l ++ before) ++ sel)%list.
Proof. intros ->. now rewrite app_assoc. Qed.

Ltac split_trace :=
  repeat first [apply split_here | apply split_cons | apply split_app].

Section LoginRuns.

Variable World : Type.
Variable handle : forall X : Type, Event X -> World -> X * World.
Variable sort_Slice : SliceSorter.
Variable EqualFold : string -> string -> bool.

(** A run of [RunLogin] either ends before any selection, having made
    only calls of its own, or is such calls followed by a run of
    [handleAccountRoleSelection], whose outcome it returns. *)
Lemma RunLogin_shape (fuel : nat) (force : bool) accountName roleName w :
  let r := RunLogin handle sort_Slice EqualFold fuel force accountName
             roleName w in
  Forall (fun c => login_call c = true) (trace r)
  \/ exists (before : list Entry) (r' : Run World (option error)),
      selection_run r'
      /\ trace r = (before ++ trace r')%list
      /\ Forall (fun c => login_call c = true) before
      /\ outcome r = outcome r'.
Proof.
  unfold RunLogin, tryCachedToken, reauthenticate, saveAccountCache.
  exec_login.
  all: cbn zeta; cbn [outcome final trace prepend ret panic out_of_fuel app].
  all: try solve [left; login_calls].
  all: right; eexists;
    match goal with
    | H : selection_run ?r |- _ => exists r; split; [exact H|]
    end;
    cbn [outcome trace]; rewrite ?app_nil_r;
    (split; [split_trace|split; [login_calls|reflexivity]]).
Qed.

End LoginRuns.

(** A fact that holds in every run of [handleAccountRoleSelection], for
    calls of a kind [RunLogin] does not make itself, holds in every run of
    [RunLogin]: there the call was made by the selection. *)
Lemma RunLogin_call_of_selection
    (World : Type) (handle : forall X : Type, Event X -> World -> X * World)
    (sort_Slice : SliceSorter) (EqualFold : string -> string -> bool)
    (fuel : nat) (force : bool) (accountName roleName : string) (w : World)
    (c : Entry) :
  In c (trace (RunLogin handle sort_Slice EqualFold fuel force accountName
                 roleName w)) ->
  login_call c = false ->
  exists (before : list Entry) (r' : Run World (option error)),
    selection_run r'
    /\ trace (RunLogin handle sort_Slice EqualFold fuel force accountName
                roleName w) = (before ++ trace r')%list
    /\ outcome (RunLogin handle sort_Slice EqualFold fuel force accountName
                  roleName w) = outcome r'
    /\ In c (trace r').
Proof.
  intros Hin Hc.
  destruct (RunLogin_shape handle sort_Slice EqualFold fuel force accountName
              roleName w) as [Hall|(before & r' & Hrun & Htrace & Hall & Hout)].
  - rewrite (proj1 (Forall_forall _ _) Hall c Hin) in Hc. discriminate Hc.
  - exists before, r'.
    split; [exact Hrun|]. split; [exact Htrace|]. split; [exact Hout|].
    rewrite Htrace in Hin. apply in_app_or in Hin. destruct Hin as [Hin|Hin];
      [|exact Hin].
    rewrite (proj1 (Forall_forall _ _) Hall c Hin) in Hc. discriminate Hc.
Qed.

Lemma cleanup_error_not_login (c : Entry) (err : error) :
  cleanup_error c = Some err -> login_call c = false.
Proof. destruct c as [X e answer]; destruct e; simpl; congruence. Qed.

Lemma no_selection_not_login (c : Entry) :
  no_selection c = true -> login_call c = false.
Proof. destruct c as [X e answer]; destruct e; simpl; congruence. Qed.

Lemma session_error_not_login (c : Entry) (err : error) :
  session_error c = Some err -> login_call c = false.
Proof. destruct c as [X e answer]; destruct e; simpl; congruence. Qed.

(** C7. Once a run has reached the sweep of stale sessions, a failure of
    the sweep changes nothing: the error is dropped, and
    [handleAccountRoleSelection], and [RunLogin] that called it, return
    [nil]. *)
Theorem cleanup_failure_is_swallowed
    (World : Type) (handle : forall X : Type, Event X -> World -> X * World)
    (sort_Slice : SliceSorter) (EqualFold : string -> string -> bool)
    (fuel : nat) (force : bool) (accessToken : string)
    (accounts : list AccountInfo) (accountName roleName : string) (w : World)
    (r : Run World (option error)) (c : Entry) (err : error) :
  r = handleAccountRoleSelection handle sort_Slice EqualFold fuel accessToken
        accounts accountName roleName w
  \/ r = RunLogin handle sort_Slice EqualFold fuel force accountName
           roleName w ->
  In c (trace r) ->
  cleanup_error c = Some err ->
  outcome r = Done None.
Proof.
  intros [->| ->] Hin Hc.
  - apply (@run_cleanup _ _
             (handleAccountRoleSelection_run handle sort_Slice EqualFold fuel
                accessToken accounts accountName roleName w) c Hin).
    now apply cleanup_error_kind with err.
  - destruct (@RunLogin_call_of_selection World handle sort_Slice EqualFold
                fuel force accountName roleName w c Hin
                (@cleanup_error_not_login c err Hc))
      as (before & r' & Hrun & _ & Hout & Hin').
    rewrite Hout. apply (@run_cleanup _ _ Hrun c Hin').
    now apply cleanup_error_kind with err.
Qed.

Ltac in_trace := vm_compute; repeat first [left; reflexivity | right].

Lemma cleanup_failure_is_swallowed_witness :
  In (Called CleanupStaleSessions (Some "permission denied"))
    (trace (RunLogin play insertionSort EqualFold_ascii 2 false "dev" "admin"
              (with_session demo None (Some "permission denied"))))
  /\ outcome (RunLogin play insertionSort EqualFold_ascii 2 false "dev" "admin"
                (with_session demo None (Some "permission denied")))
     = Done None.
Proof.
  assert (Hin : In (Called CleanupStaleSessions (Some "permission denied"))
                  (trace (RunLogin play insertionSort EqualFold_ascii 2 false
                            "dev" "admin"
                            (with_session demo None (Some "permission denied")))))
    by in_trace.
  split; [exact Hin|].
  apply (@cleanup_failure_is_swallowed Script play insertionSort
           EqualFold_ascii 2 false "cached" [Prod; Dev] "dev" "admin"
           (with_session demo None (Some "permission denied"))
           (RunLogin play insertionSort EqualFold_ascii 2 false "dev" "admin"
              (with_session demo None (Some "permission denied")))
           (Called CleanupStaleSessions (Some "permission denied"))
           "permission denied").
  - right. reflexivity.
  - exact Hin.
  - reflexivity.
Defined.

(** C8. When the chooser gives no selection (index [-1], or an error), the
    run stops there: [handleAccountRoleSelection], and [RunLogin] that
    called it, return an error and make no further call, so no account or
    role is put in place of the missing choice. *)
Theorem aborted_choice_fails_login
    (World : Type) (handle : forall X : Type, Event X -> World -> X * World)
    (sort_Slice : SliceSorter) (EqualFold : string -> string -> bool)
    (fuel : nat) (force : bool) (accessToken : string)
    (accounts : list AccountInfo) (accountName roleName : string) (w : World)
    (r : Run World (option error)) (c : Entry) :
  r = handleAccountRoleSelection handle sort_Slice EqualFold fuel accessToken
        accounts accountName roleName w
  \/ r = RunLogin handle sort_Slice EqualFold fuel force accountName
           roleName w ->
  In c (trace r) ->
  no_selection c = true ->
  (exists err, outcome r = Done (Some err)) /\ ends_with (trace r) c.
Proof.
  intros [->| ->] Hin Hc.
  - exact (@run_no_selection _ _
             (handleAccountRoleSelection_run handle sort_Slice EqualFold fuel
                accessToken accounts accountName roleName w) c Hin Hc).
  - destruct (@RunLogin_call_of_selection World handle sort_Slice EqualFold
                fuel force accountName roleName w c Hin
                (@no_selection_not_login c Hc))
      as (before & r' & Hrun & Htrace & Hout & Hin').
    rewrite Hout, Htrace.
    destruct (@run_no_selection _ _ Hrun c Hin' Hc) as [Herr Hlast].
    split; [exact Herr|]. now apply ends_with_app.
Qed.

Lemma aborted_choice_fails_login_witness :
  In (Called (RunSelector "Select role for Dev:" ["Admin"; "ReadOnly"])
        (Ok (-1)%Z))
    (trace (RunLogin play insertionSort EqualFold_ascii 2 false "dev" ""
              (with_choices demo [Ok (-1)%Z])))
  /\ (exists err,
         outcome (RunLogin play insertionSort EqualFold_ascii 2 false "dev" ""
                    (with_choices demo [Ok (-1)%Z])) = Done (Some err))
  /\ ends_with
       (trace (RunLogin play insertionSort EqualFold_ascii 2 false "dev" ""
                 (with_choices demo [Ok (-1)%Z])))
       (Called (RunSelector "Select role for Dev:" ["Admin"; "ReadOnly"])
          (Ok (-1)%Z)).
Proof.
  assert (Hin : In (Called (RunSelector "Select role for Dev:"
                              ["Admin"; "ReadOnly"]) (Ok (-1)%Z))
                  (trace (RunLogin play insertionSort EqualFold_ascii 2 false
                            "dev" "" (with_choices demo [Ok (-1)%Z]))))
    by in_trace.
  split; [exact Hin|].
  apply (@aborted_choice_fails_login Script play insertionSort
           EqualFold_ascii 2 false "cached" [Prod; Dev] "dev" ""
           (with_choices demo [Ok (-1)%Z])
           (RunLogin play insertionSort EqualFold_ascii 2 false "dev" ""
              (with_choices demo [Ok (-1)%Z]))
           (Called (RunSelector "Select role for Dev:" ["Admin"; "ReadOnly"])
              (Ok (-1)%Z))).
  - right. reflexivity.
  - exact Hin.
  - reflexivity.
Defined.

(** The two errors of an aborted choice, on the scripted world. *)
Example aborted_account_choice :
  outcome (RunLogin play insertionSort EqualFold_ascii 2 false "" ""
             (with_choices demo [Ok (-1)%Z]))
  = Done (Some "no account selected")
  /\ outcome (RunLogin play insertionSort EqualFold_ascii 2 false "" ""
                (with_choices demo [Err "interrupted"]))
     = Done (Some "error selecting account: interrupted").
Proof. split; reflexivity. Qed.

(** C2, as the code has it: a failed session write ends the login with the
    error ["error saving session: ..."], returned by
    [handleAccountRoleSelection] and by [RunLogin] that called it. The
    profile has been written by then; nothing is called after the failed
    write, so the sweep of stale sessions does not run. *)
Theorem session_write_failure_fails_login
    (World : Type) (handle : forall X : Type, Event X -> World -> X * World)
    (sort_Slice : SliceSorter) (EqualFold : string -> string -> bool)
    (fuel : nat) (force : bool) (accessToken : string)
    (accounts : list AccountInfo) (accountName roleName : string) (w : World)
    (r : Run World (option error)) (c : Entry) (err : error) :
  r = handleAccountRoleSelection handle sort_Slice EqualFold fuel accessToken
        accounts accountName roleName w
  \/ r = RunLogin handle sort_Slice EqualFold fuel force accountName
           roleName w ->
  In c (trace r) ->
  session_error c = Some err ->
  outcome r = Done (Some ("error saving session: " ++ err))
  /\ ends_with (trace r) c
  /\ existsb profile_written (trace r) = true.
Proof.
  intros [->| ->] Hin Hc.
  - exact (@run_session_error _ _
             (handleAccountRoleSelection_run handle sort_Slice EqualFold fuel
                accessToken accounts accountName roleName w) c err Hin Hc).
  - destruct (@RunLogin_call_of_selection World handle sort_Slice EqualFold
                fuel force accountName roleName w c Hin
                (@session_error_not_login c err Hc))
      as (before & r' & Hrun & Htrace & Hout & Hin').
    rewrite Hout, Htrace.
    destruct (@run_session_error _ _ Hrun c err Hin' Hc)
      as (Herr & Hlast & Hprofile).
    split; [exact Herr|]. split; [now apply ends_with_app|].
    rewrite existsb_app, Hprofile. apply orb_true_r.
Qed.

Lemma session_write_failure_fails_login_witness :
  In (Called (SaveSession 500 "Dev-Admin" "111" "Dev" "Admin")
        (Some "disk full"))
    (trace (RunLogin play insertionSort EqualFold_ascii 2 false "dev" "admin"
              (with_session demo (Some "disk full") None)))
  /\ outcome (RunLogin play insertionSort EqualFold_ascii 2 false "dev" "admin"
                (with_session demo (Some "disk full") None))
     = Done (Some ("error saving session: " ++ "disk full"))
  /\ ends_with
       (trace (RunLogin play insertionSort EqualFold_ascii 2 false "dev"
                 "admin" (with_session demo (Some "disk full") None)))
       (Called (SaveSession 500 "Dev-Admin" "111" "Dev" "Admin")
          (Some "disk full"))
  /\ existsb profile_written
       (trace (RunLogin play insertionSort EqualFold_ascii 2 false "dev"
                 "admin" (with_session demo (Some "disk full") None)))
     = true.
Proof.
  assert (Hin : In (Called (SaveSession 500 "Dev-Admin" "111" "Dev" "Admin")
                      (Some "disk full"))
                  (trace (RunLogin play insertionSort EqualFold_ascii 2 false
                            "dev" "admin"
                            (with_session demo (Some "disk full") None))))
    by in_trace.
  split; [exact Hin|].
  apply (@session_write_failure_fails_login Script play insertionSort
           EqualFold_ascii 2 false "cached" [Prod; Dev] "dev" "admin"
           (with_session demo (Some "disk full") None)
           (RunLogin play insertionSort EqualFold_ascii 2 false "dev" "admin"
              (with_session demo (Some "disk full") None))
           (Called (SaveSession 500 "Dev-Admin" "111" "Dev" "Admin")
              (Some "disk full"))
           "disk full").
  - right. reflexivity.
  - exact Hin.
  - reflexivity.
Defined.

(** The claim C2 as written fails: the profile is written, the session
    write fails, and the login does not complete: it returns the error. *)
Lemma session_write_failure_is_not_a_warning :
  existsb profile_written
    (trace (RunLogin play insertionSort EqualFold_ascii 2 false "dev" "admin"
              (with_session demo (Some "disk full") None))) = true
  /\ existsb (fun c => match session_error c with
                       | Some _ => true
                       | None => false
                       end)
       (trace (RunLogin play insertionSort EqualFold_ascii 2 false "dev"
                 "admin" (with_session demo (Some "disk full") None))) = true
  /\ outcome (RunLogin play insertionSort EqualFold_ascii 2 false "dev" "admin"
                (with_session demo (Some "disk full") None))
     = Done (Some "error saving session: disk full")
  /\ outcome (RunLogin play insertionSort EqualFold_ascii 2 false "dev" "admin"
                (with_session demo (Some "disk full") None))
     <> Done None.
Proof. repeat split; try reflexivity. discriminate. Qed.

(** ** Authentication and retries in [RunLogin] *)

Lemma quiet_filter (p : Entry -> bool) (t : list Entry) :
  Forall (fun c => p c = false) t -> filter p t = [].
Proof.
  induction 1 as [|c t Hc _ IH]; simpl; [reflexivity|]. now rewrite Hc.
Qed.

Lemma quiet_existsb (p : Entry -> bool) (t : list Entry) :
  Forall (fun c => p c = false) t -> existsb p t = false.
Proof.
  induction 1 as [|c t Hc _ IH]; simpl; [reflexivity|]. now rewrite Hc.
Qed.

Lemma after_Authenticate_app (l t : list Entry) :
  filter is_Authenticate l = [] ->
  after_Authenticate (l ++ t) = after_Authenticate t.
Proof.
  induction l as [|c l IH]; simpl; [reflexivity|].
  destruct (is_Authenticate c); [discriminate|]. exact IH.
Qed.

Lemma after_Authenticate_none (t : list Entry) :
  filter is_Authenticate t = [] -> after_Authenticate t = [].
Proof.
  induction t as [|c t IH]; simpl; [reflexivity|].
  destruct (is_Authenticate c); [discriminate|]. exact IH.
Qed.

Lemma accounts_requests_quiet (t : list Entry) :
  Forall (fun c => accounts_request c = true) t ->
  filter is_Authenticate t = [] /\ existsb authenticated t = false
  /\ existsb token_read t = false.
Proof.
  intros Hall.
  repeat split; [apply quiet_filter|apply quiet_existsb|apply quiet_existsb];
    (eapply Forall_impl; [|exact Hall]);
    intros [X e answer]; destruct e; simpl; congruence.
Qed.

Lemma selection_calls_quiet (t : list Entry) :
  Forall (fun c => selection_call c = true) t ->
  filter is_Authenticate t = [] /\ filter is_listing_start t = []
  /\ existsb authenticated t = false /\ existsb token_read t = false.
Proof.
  intros Hall.
  repeat split;
    [apply quiet_filter|apply quiet_filter|apply quiet_existsb
    |apply quiet_existsb];
    (eapply Forall_impl; [|exact Hall]);
    intros [X e answer]; destruct e; simpl; congruence.
Qed.

(** Counting through a trace. *)
Ltac tally :=
  unfold count in *;
  repeat
    (progress
       (cbn [filter existsb after_Authenticate is_Authenticate
               is_listing_start authenticated token_read app List.length
               orb andb];
        rewrite ?filter_app, ?existsb_app, ?app_nil_r, ?length_app;
        repeat match goal with
          | H : filter is_Authenticate ?t = []
            |- context [after_Authenticate (?t ++ ?u)%list] =>
              rewrite (after_Authenticate_app t u H)
          | H : filter is_Authenticate ?t = []
            |- context [after_Authenticate ?t] =>
              rewrite (after_Authenticate_none t H)
          | H : filter ?p ?t = [] |- context [filter ?p ?t] => rewrite H
          | H : existsb ?p ?t = false |- context [existsb ?p ?t] => rewrite H
          | H : List.length (filter ?p ?t) = _
            |- context [List.length (filter ?p ?t)] => rewrite H
          end)).

Section LoginCounts.

Variable World : Type.
Variable handle : forall X : Type, Event X -> World -> X * World.
Variable sort_Slice : SliceSorter.
Variable EqualFold : string -> string -> bool.

Lemma RunLogin_counts (fuel : nat) (force : bool) accountName roleName w :
  0 < fuel ->
  let r := RunLogin handle sort_Slice EqualFold fuel force accountName
             roleName w in
  count is_Authenticate (trace r) <= 1
  /\ count is_listing_start (trace r) <= 2
  /\ count is_listing_start (after_Authenticate (trace r))
     = (if existsb authenticated (trace r)
           && existsb token_read (after_Authenticate (trace r))
        then 1 else 0)
  /\ (outcome r = Done (Some "no accounts found") ->
      existsb authenticated (trace r) = true).
Proof.
  intros Hfuel. destruct fuel as [|fuel]; [lia|clear Hfuel].
  unfold RunLogin, tryCachedToken, reauthenticate, saveAccountCache.
  exec_login.
  all: cbn zeta; cbn [outcome final trace prepend ret panic out_of_fuel app].
  all: repeat match goal with
         | H : Forall (fun c => accounts_request c = true) _ |- _ =>
             apply accounts_requests_quiet in H; destruct H as (? & ? & ?)
         | H : selection_run _ |- _ =>
             let Hcalls := fresh "Hcalls" in
             let Hacc := fresh "Hacc" in
             pose proof (run_calls H) as Hcalls;
             pose proof (run_has_accounts H) as Hacc;
             clear H;
             cbn [trace outcome] in Hcalls, Hacc;
             apply selection_calls_quiet in Hcalls;
             destruct Hcalls as (? & ? & ? & ?)
         end.
  all: tally.
  all: repeat split; try lia; try reflexivity.
  all: let K := fresh "K" in intros K; simpl in K; congruence.
Qed.

End LoginCounts.

Section CachedToken.

Variable World : Type.
Variable handle : forall X : Type, Event X -> World -> X * World.
Variable sort_Slice : SliceSorter.
Variable EqualFold : string -> string -> bool.

(** Past the guards and without [--force], whether [RunLogin]
    authenticates is decided by the cached-token attempt alone. *)
Lemma RunLogin_authenticates (fuel : nat) accountName roleName w w2 :
  passes_guards handle w w2 ->
  count is_Authenticate
    (trace (RunLogin handle sort_Slice EqualFold fuel false accountName
              roleName w))
  = match cachedAttempt handle fuel w2 with
    | Unusable => 1
    | Works => 0
    | Unfinished => 0
    end.
Proof.
  intros (url & w1 & Hurl & Hne & Hmanager).
  unfold RunLogin. rewrite bind_call, Hurl. cbn [fst snd].
  apply String.eqb_neq in Hne. rewrite Hne.
  rewrite bind_call, Hmanager. cbn [fst snd negb].
  unfold cachedAttempt, tryCachedToken, reauthenticate, saveAccountCache.
  exec_login.
  all: cbn zeta; cbn [outcome final trace prepend ret panic out_of_fuel app
                        fst snd].
  all: repeat match goal with
         | H : ListAccounts _ _ _ _ = _ |- _ => rewrite H; clear H
         end; cbn [outcome].
  all: repeat match goal with
         | H : Nat.ltb _ _ = _ |- _ => rewrite H
         | H : _ = Some _ |- _ => rewrite H in *
         | H : _ = None |- _ => rewrite H in *
         end.
  all: repeat match goal with
         | H : Forall (fun c => accounts_request c = true) _ |- _ =>
             apply accounts_requests_quiet in H; destruct H as (? & ? & ?)
         | H : selection_run _ |- _ =>
             let Hcalls := fresh "Hcalls" in
             pose proof (run_calls H) as Hcalls;
             clear H;
             cbn [trace outcome] in Hcalls;
             apply selection_calls_quiet in Hcalls;
             destruct Hcalls as (? & ? & ? & ?)
         end.
  all: tally.
  all: try reflexivity.

Qed.

End CachedToken.


Lemma demo_passes_guards (s : Script) :
  config s "sso.start_url" <> "" -> manager s = Ok tt ->
  passes_guards play s s.
Proof.
  intros Hurl Hmanager. exists (config s "sso.start_url"), s.
  repeat split; [assumption|]. simpl. now rewrite Hmanager.
Defined.


(** The three ways of the cached-token attempt, on scripted worlds: the
    token works (no authentication); it lists nothing (one authentication,
    one more listing); it has expired and the authentication is refused
    (one authentication, no listing). *)
Example cached_token_attempts :
  (cachedAttempt play 2 demo = Works
   /\ count is_Authenticate
        (trace (RunLogin play insertionSort EqualFold_ascii 2 false "dev"
                  "admin" demo)) = 0)
  /\ (cachedAttempt play 2 emptied = Unusable
      /\ count is_Authenticate
           (trace (RunLogin play insertionSort EqualFold_ascii 2 false "dev"
                     "admin" emptied)) = 1
      /\ count is_listing_start
           (after_Authenticate
              (trace (RunLogin play insertionSort EqualFold_ascii 2 false
                        "dev" "admin" emptied))) = 1
      /\ outcome (RunLogin play insertionSort EqualFold_ascii 2 false "dev"
                    "admin" emptied) = Done None).
Proof. repeat split; vm_compute; reflexivity. Qed.


(** C10. When the cached token is read and the listing made with it
    returns no account and no error, [RunLogin] does not fail there: it
    goes on to the authentication, as if there had been no token. The
    error ["no accounts found"] is only ever returned after an
    authentication that succeeded. *)
Theorem empty_cached_listing_reauthenticates
    (World : Type) (handle : forall X : Type, Event X -> World -> X * World)
    (sort_Slice : SliceSorter) (EqualFold : string -> string -> bool)
    (fuel : nat) (accountName roleName : string)
    (w w1 w2 w3 w4 : World) (url accessToken : string)
    (requests : list Entry)
    (force' : bool) (accountName' roleName' : string) (w' : World) :
  handle _ (viper_GetString "sso.start_url") w = (url, w1) ->
  url <> "" ->
  handle _ NewCredentialsManager w1 = (Ok tt, w2) ->
  handle _ GetCachedToken w2 = (Ok accessToken, w3) ->
  ListAccounts handle fuel accessToken w3
  = {| outcome := Done ([], None); final := w4; trace := requests |} ->
  (outcome (RunLogin handle sort_Slice EqualFold fuel false accountName
              roleName w)
   = outcome (reauthenticate handle sort_Slice EqualFold fuel accountName
                roleName w4)
   /\ trace (RunLogin handle sort_Slice EqualFold fuel false accountName
               roleName w)
      = (Called (viper_GetString "sso.start_url") url
         :: Called NewCredentialsManager (Ok tt)
         :: Called GetCachedToken (Ok accessToken)
         :: requests
         ++ trace (reauthenticate handle sort_Slice EqualFold fuel
                     accountName roleName w4))%list
   /\ count is_Authenticate
        (trace (RunLogin handle sort_Slice EqualFold fuel false accountName
                  roleName w)) = 1)
  /\ (outcome (RunLogin handle sort_Slice EqualFold fuel force' accountName'
                 roleName' w')
      = Done (Some "no accounts found") ->
      existsb authenticated
        (trace (RunLogin handle sort_Slice EqualFold fuel force' accountName'
                  roleName' w')) = true).
Proof.
  intros Hurl Hne Hmanager Htoken Hlisted.
  assert (Hfuel : 0 < fuel).
  { destruct fuel; [discriminate Hlisted|lia]. }
  split.
  - assert (Hattempt : cachedAttempt handle fuel w2 = Unusable).
    { unfold cachedAttempt. rewrite Htoken. cbn [fst snd].
      now rewrite Hlisted. }
    assert (Hguards : passes_guards handle w w2) by (now exists url, w1).
    pose proof (@RunLogin_authenticates World handle sort_Slice EqualFold
                  fuel accountName roleName w w2 Hguards) as Hcount.
    rewrite Hattempt in Hcount.
    split; [|split; [|exact Hcount]];
      unfold RunLogin; rewrite bind_call, Hurl; cbn [fst snd];
      apply String.eqb_neq in Hne; rewrite Hne;
      rewrite bind_call, Hmanager; cbn [fst snd negb];
      unfold tryCachedToken;
      rewrite bind_bind, bind_call, Htoken; cbn [fst snd];
      rewrite bind_bind, bind_run, Hlisted;
      cbn [outcome final trace fst snd List.length Nat.ltb Nat.leb];
      rewrite bind_ret; cbn [outcome trace prepend app];
      reflexivity.
  - intros Hout.
    now apply (@RunLogin_counts World handle sort_Slice EqualFold fuel force'
                 accountName' roleName' w' Hfuel).
Qed.

Lemma empty_cached_listing_reauthenticates_witness :
  (outcome (RunLogin play insertionSort EqualFold_ascii 2 false "dev" "admin"
              emptied)
   = outcome (reauthenticate play insertionSort EqualFold_ascii 2 "dev"
                "admin" (snd (next_token emptied)))
   /\ trace (RunLogin play insertionSort EqualFold_ascii 2 false "dev" "admin"
               emptied)
      = (Called (viper_GetString "sso.start_url")
           "https://example.awsapps.com/start"
         :: Called NewCredentialsManager (Ok tt)
         :: Called GetCachedToken (Ok "cached")
         :: [Called (client_ListAccounts "cached" None)
               (Ok {| AccountList := []; AccountsNextToken := None |})]
         ++ trace (reauthenticate play insertionSort EqualFold_ascii 2 "dev"
                     "admin" (snd (next_token emptied))))%list
   /\ count is_Authenticate
        (trace (RunLogin play insertionSort EqualFold_ascii 2 false "dev"
                  "admin" emptied)) = 1)
  /\ (outcome (RunLogin play insertionSort EqualFold_ascii 2 true "dev"
                 "admin" emptied)
      = Done (Some "no accounts found") ->
      existsb authenticated
        (trace (RunLogin play insertionSort EqualFold_ascii 2 true "dev"
                  "admin" emptied)) = true).
Proof.
  apply (@empty_cached_listing_reauthenticates Script play insertionSort
           EqualFold_ascii 2 "dev" "admin"
           emptied emptied emptied (snd (next_token emptied))
           (snd (next_token emptied))
           "https://example.awsapps.com/start" "cached"
           [Called (client_ListAccounts "cached" None)
              (Ok {| AccountList := []; AccountsNextToken := None |})]
           true "dev" "admin" emptied).
  - reflexivity.
  - discriminate.
  - reflexivity.
  - reflexivity.
  - reflexivity.
Defined.

(** With [--force] and a provider that lists no account even for the
    fresh token, the error is returned, after the authentication. *)
Example no_accounts_after_authentication :
  outcome (RunLogin play insertionSort EqualFold_ascii 2 true "dev" "admin"
             (with_tokens emptied [Ok "cached"] [None]))
  = Done (Some "no accounts found")
  /\ existsb authenticated
       (trace (RunLogin play insertionSort EqualFold_ascii 2 true "dev"
                 "admin" (with_tokens emptied [Ok "cached"] [None]))) = true.
Proof. split; vm_compute; reflexivity. Qed.

(** * Further properties of the listing calls *)

Section Requests.

Variable World : Type.
Variable handle : forall X : Type, Event X -> World -> X * World.

Lemma ListAccounts_loop_chain (fuel : nat) accessToken allAccounts cursor w :
  accounts_chain accessToken cursor
    (trace (ListAccounts_loop handle fuel accessToken allAccounts cursor w)).
Proof.
  revert allAccounts cursor w. induction fuel as [|fuel IH]; intros;
    [exact I|].
  rewrite ListAccounts_loop_step, bind_call.
  destruct (handle _ w) as [[result|err] w1] eqn:Hcall; cbn [fst snd].
  - destruct (AccountsNextToken result) as [next|] eqn:Hnext;
      cbn [ret prepend trace app accounts_chain]; rewrite ?Hnext;
      repeat split; try reflexivity.
    apply IH.
  - cbn [ret prepend trace app accounts_chain]. repeat split; reflexivity.
Qed.

Lemma ListRoles_loop_chain (fuel : nat) accessToken accountId allRoles cursor w :
  roles_chain accessToken accountId cursor
    (trace (ListRoles_loop handle fuel accessToken accountId allRoles cursor w)).
Proof.
  revert allRoles cursor w. induction fuel as [|fuel IH]; intros; [exact I|].
  rewrite ListRoles_loop_step, bind_call.
  destruct (handle _ w) as [[result|err] w1] eqn:Hcall; cbn [fst snd].
  - destruct (RolesNextToken result) as [next|] eqn:Hnext;
      cbn [ret prepend trace app roles_chain]; rewrite ?Hnext;
      repeat split; try reflexivity.
    apply IH.
  - cbn [ret prepend trace app roles_chain]. repeat split; reflexivity.
Qed.

Lemma ListAccounts_loop_result (fuel : nat) accessToken allAccounts cursor w :
  match outcome (ListAccounts_loop handle fuel accessToken allAccounts cursor w)
  with
  | Done (items, Some _) => items = []
  | Done (_, None) => True
  | Panicked _ => False
  | OutOfFuel => True
  end.
Proof.
  revert allAccounts cursor w. induction fuel as [|fuel IH]; intros;
    [exact I|].
  rewrite ListAccounts_loop_step, bind_call.
  destruct (handle _ w) as [[result|err] w1]; cbn [fst snd].
  - destruct (AccountsNextToken result); cbn [ret prepend outcome];
      [apply IH|exact I].
  - reflexivity.
Qed.

Lemma ListRoles_loop_result (fuel : nat) accessToken accountId allRoles cursor w :
  match outcome (ListRoles_loop handle fuel accessToken accountId allRoles
                   cursor w)
  with
  | Done (items, Some _) => items = []
  | Done (_, None) => True
  | Panicked _ => False
  | OutOfFuel => True
  end.
Proof.
  revert allRoles cursor w. induction fuel as [|fuel IH]; intros; [exact I|].
  rewrite ListRoles_loop_step, bind_call.
  destruct (handle _ w) as [[result|err] w1]; cbn [fst snd].
  - destruct (RolesNextToken result); cbn [ret prepend outcome];
      [apply IH|exact I].
  - reflexivity.
Qed.

Lemma ListAccounts_loop_endless (keeps : World -> Prop) (fuel : nat)
    accessToken allAccounts cursor w :
  (forall cursor w, keeps w -> exists page next w',
      handle (client_ListAccounts accessToken cursor) w
      = (Ok {| AccountList := page; AccountsNextToken := Some next |}, w')
      /\ keeps w') ->
  keeps w ->
  outcome (ListAccounts_loop handle fuel accessToken allAccounts cursor w)
  = OutOfFuel
  /\ List.length
       (trace (ListAccounts_loop handle fuel accessToken allAccounts cursor w))
     = fuel.
Proof.
  intros Hmore. revert allAccounts cursor w.
  induction fuel as [|fuel IH]; intros allAccounts cursor w Hw;
    [split; reflexivity|].
  rewrite ListAccounts_loop_step, bind_call.
  destruct (Hmore cursor w Hw) as (page & next & w' & -> & Hw').
  cbn [fst snd AccountsNextToken AccountList prepend outcome trace app
         List.length].
  destruct (IH (allAccounts ++ page)%list (Some next) w' Hw') as [-> ->].
  split; reflexivity.
Qed.

Lemma ListRoles_loop_endless (keeps : World -> Prop) (fuel : nat)
    accessToken accountId allRoles cursor w :
  (forall cursor w, keeps w -> exists page next w',
      handle (client_ListAccountRoles accessToken accountId cursor) w
      = (Ok {| RoleList := page; RolesNextToken := Some next |}, w')
      /\ keeps w') ->
  keeps w ->
  outcome (ListRoles_loop handle fuel accessToken accountId allRoles cursor w)
  = OutOfFuel
  /\ List.length
       (trace (ListRoles_loop handle fuel accessToken accountId allRoles
                 cursor w))
     = fuel.
Proof.
  intros Hmore. revert allRoles cursor w.
  induction fuel as [|fuel IH]; intros allRoles cursor w Hw;
    [split; reflexivity|].
  rewrite ListRoles_loop_step, bind_call.
  destruct (Hmore cursor w Hw) as (page & next & w' & -> & Hw').
  cbn [fst snd RolesNextToken RoleList prepend outcome trace app List.length].
  destruct (IH (allRoles ++ page)%list (Some next) w' Hw') as [-> ->].
  split; reflexivity.
Qed.

End Requests.

(** X1. The requests of [ListAccounts] (and of [ListRoles]) follow the
    cursor: the first has none, each later one carries the [NextToken] of
    the page before, all carry the access token (and account) of the call,
    and no request follows a page without [NextToken] or a failed fetch. *)
Theorem listing_follows_cursor
    (World : Type) (handle : forall X : Type, Event X -> World -> X * World)
    (fuel : nat) (accessToken accountId : string) (w : World) :
  accounts_chain accessToken None
    (trace (ListAccounts handle fuel accessToken w))
  /\ roles_chain accessToken accountId None
       (trace (ListRoles handle fuel accessToken accountId w)).
Proof.
  split; [apply ListAccounts_loop_chain|apply ListRoles_loop_chain].
Qed.

(** X2. Whatever the provider answers, [ListAccounts] (and [ListRoles])
    never returns items together with an error, and never panics: a
    returned error comes with the empty list. *)
Theorem listing_error_has_no_items
    (World : Type) (handle : forall X : Type, Event X -> World -> X * World)
    (fuel : nat) (accessToken accountId : string) (w : World) :
  (forall items err,
      outcome (ListAccounts handle fuel accessToken w) = Done (items, Some err)
      -> items = [])
  /\ (forall msg,
         outcome (ListAccounts handle fuel accessToken w) <> Panicked msg)
  /\ (forall items err,
         outcome (ListRoles handle fuel accessToken accountId w)
         = Done (items, Some err) -> items = [])
  /\ (forall msg,
         outcome (ListRoles handle fuel accessToken accountId w)
         <> Panicked msg).
Proof.
  pose proof (ListAccounts_loop_result handle fuel accessToken [] None w) as Ha.
  pose proof (ListRoles_loop_result handle fuel accessToken accountId [] None w)
    as Hr.
  unfold ListAccounts, ListRoles.
  repeat split.
  - intros items err H. now rewrite H in Ha.
  - intros msg H. now rewrite H in Ha.
  - intros items err H. now rewrite H in Hr.
  - intros msg H. now rewrite H in Hr.
Qed.

(** X3. Nothing bounds the pagination loops: against a provider that
    gives a next cursor with every page, and goes on doing so (the worlds
    in [keeps]), [ListAccounts] (and [ListRoles]) never returns: every
    request allowed is made and the loop is still running. *)
Theorem listing_never_ends_on_endless_pages
    (World : Type) (handle : forall X : Type, Event X -> World -> X * World)
    (keeps : World -> Prop)
    (fuel : nat) (accessToken accountId : string) (w : World) :
  (forall cursor w, keeps w -> exists page next w',
      handle _ (client_ListAccounts accessToken cursor) w
      = (Ok {| AccountList := page; AccountsNextToken := Some next |}, w')
      /\ keeps w') ->
  (forall cursor w, keeps w -> exists page next w',
      handle _ (client_ListAccountRoles accessToken accountId cursor) w
      = (Ok {| RoleList := page; RolesNextToken := Some next |}, w')
      /\ keeps w') ->
  keeps w ->
  (outcome (ListAccounts handle fuel accessToken w) = OutOfFuel
   /\ List.length (trace (ListAccounts handle fuel accessToken w)) = fuel)
  /\ (outcome (ListRoles handle fuel accessToken accountId w) = OutOfFuel
      /\ List.length (trace (ListRoles handle fuel accessToken accountId w))
         = fuel).
Proof.
  intros Ha Hr Hw. split.
  - now apply ListAccounts_loop_endless with keeps.
  - now apply ListRoles_loop_endless with keeps.
Qed.

Lemma listing_never_ends_on_endless_pages_witness :
  (outcome (ListAccounts play 7 "cached" endless) = OutOfFuel
   /\ List.length (trace (ListAccounts play 7 "cached" endless)) = 7)
  /\ (outcome (ListRoles play 7 "cached" "111" endless) = OutOfFuel
      /\ List.length (trace (ListRoles play 7 "cached" "111" endless)) = 7).
Proof.
  apply (@listing_never_ends_on_endless_pages Script play
           (fun s => accountPages s = endless_accountPages
                     /\ rolePages s = endless_rolePages)
           7 "cached" "111" endless).
  - intros cursor w [Ha Hr]. exists [Dev], "again", w.
    simpl. rewrite Ha. split; [reflexivity|]. split; (reflexivity || assumption).
  - intros cursor w [Ha Hr]. exists [Admin], "again", w.
    simpl. rewrite Hr. split; [reflexivity|]. split; (reflexivity || assumption).
  - split; reflexivity.
Defined.

(** Membership in a trace with parts left open. *)
Ltac in_open := repeat first [left; reflexivity | right | apply in_or_app; right].

(** * Further properties of [RunLogin] *)

(** A step of a run of [RunLogin] that keeps the run of
    [handleAccountRoleSelection] as it is. *)
Ltac exec_handover_head :=
  first
    [ exec_head
    | rewrite ?bind_bind;
      match goal with
      | |- context [bind (handleAccountRoleSelection ?h ?s ?E ?f ?t ?a ?an ?rn)
                      ?k ?w] =>
          rewrite (bind_run (handleAccountRoleSelection h s E f t a an rn) k w);
          destruct (outcome (handleAccountRoleSelection h s E f t a an rn w))
            eqn:?;
          cbn beta
      end ].

Ltac exec_handover := repeat exec_handover_head.

Section Handover.

Variable World : Type.
Variable handle : forall X : Type, Event X -> World -> X * World.
Variable sort_Slice : SliceSorter.
Variable EqualFold : string -> string -> bool.

Lemma RunLogin_handover (fuel : nat) (force : bool) accountName roleName w :
  let r := RunLogin handle sort_Slice EqualFold fuel force accountName
             roleName w in
  (Forall (fun c => login_call c = true) (trace r)
   /\ (outcome r = OutOfFuel \/ exists err, outcome r = Done (Some err)))
  \/ exists before accessToken accounts w' w3 w4 requests,
      trace r
      = (before
         ++ trace (handleAccountRoleSelection handle sort_Slice EqualFold fuel
                     accessToken accounts accountName roleName w'))%list
      /\ outcome r
         = outcome (handleAccountRoleSelection handle sort_Slice EqualFold
                      fuel accessToken accounts accountName roleName w')
      /\ ListAccounts handle fuel accessToken w3
         = {| outcome := Done (accounts, None); final := w4;
              trace := requests |}
      /\ accounts <> []
      /\ Forall (fun c => login_call c = true) before.
Proof.
  unfold RunLogin, tryCachedToken, reauthenticate, saveAccountCache.
  exec_handover.
  all: cbn zeta; cbn [outcome final trace prepend ret panic out_of_fuel app].
  all: try solve [left; split; [login_calls|first [left; reflexivity | right; eexists; reflexivity]]].
  all: try solve [
    exfalso;
    match goal with
    | H : ListAccounts ?h ?f ?t ?w = {| outcome := Panicked _; final := _; trace := _ |} |- _ =>
        pose proof (ListAccounts_loop_result h f t [] None w) as K;
        change (ListAccounts_loop h f t [] None w)
          with (ListAccounts h f t w) in K;
        rewrite H in K; exact K
    end].
  all: right; eexists; eexists; eexists; eexists; eexists; eexists; eexists;
    rewrite ?app_nil_r;
    (split; [split_trace|]);
    (split; [first [reflexivity | symmetry; eassumption]|]);
    (split; [eassumption|]);
    (split; [|login_calls]).
  all: let K := fresh "K" in
       intros K; rewrite K in *;
       match goal with
       | H : Nat.eqb (List.length []) 0 = false |- _ => discriminate H
       | H : Nat.ltb 0 (List.length []) = true |- _ => discriminate H
       end.
Qed.

End Handover.

Lemma accounts_request_plain (c : Entry) :
  accounts_request c = true ->
  cached_accounts c = None /\ is_SaveAccountCache c = false
  /\ is_GetCachedToken c = false.
Proof. destruct c as [X e answer]; destruct e; simpl; intros; try discriminate; auto. Qed.

Lemma selection_call_plain (c : Entry) :
  selection_call c = true ->
  cached_accounts c = None /\ is_SaveAccountCache c = false
  /\ is_GetCachedToken c = false.
Proof. destruct c as [X e answer]; destruct e; simpl; intros; try discriminate; auto. Qed.


Section LoginPrefix.

Variable World : Type.
Variable handle : forall X : Type, Event X -> World -> X * World.
Variable sort_Slice : SliceSorter.
Variable EqualFold : string -> string -> bool.

(** X5. [RunLogin] does nothing before its two guards: a run with any
    call other than reading [sso.start_url] and creating the credentials
    manager has started with these two, in this order, the start URL not
    empty and the manager created. *)
Lemma login_guards_come_first (fuel : nat) (force : bool) accountName roleName w c :
  In c (trace (RunLogin handle sort_Slice EqualFold fuel force accountName
                 roleName w)) ->
  guard_call c = false ->
  exists url rest,
    url <> ""
    /\ trace (RunLogin handle sort_Slice EqualFold fuel force accountName
                roleName w)
       = Called (viper_GetString "sso.start_url") url
         :: Called NewCredentialsManager (Ok tt) :: rest.
Proof.
  unfold RunLogin, tryCachedToken, reauthenticate, saveAccountCache.
  exec_login.
  all: cbn zeta; cbn [outcome final trace prepend ret panic out_of_fuel app].
  all: intros Hin Hc.
  all: try solve [locate Hin; cbn in Hc; discriminate Hc].
  all: eexists; eexists;
    (split; [apply String.eqb_neq; eassumption|]);
    repeat match goal with u : unit |- _ => destruct u end;
    reflexivity.
Qed.

(** X7. The accounts [RunLogin] saves to the account cache are never the
    empty list and are the very accounts handed to
    [handleAccountRoleSelection], whose result is the result of the login;
    a failure of the save is printed as a warning and changes nothing
    else. *)
Lemma cached_accounts_are_handed_over (fuel : nat) (force : bool) accountName roleName w c
    accounts :
  In c (trace (RunLogin handle sort_Slice EqualFold fuel force accountName
                 roleName w)) ->
  cached_accounts c = Some accounts ->
  accounts <> []
  /\ (exists before accessToken w',
         trace (RunLogin handle sort_Slice EqualFold fuel force accountName
                  roleName w)
         = (before
            ++ trace (handleAccountRoleSelection handle sort_Slice EqualFold
                        fuel accessToken accounts accountName roleName w'))%list
         /\ outcome (RunLogin handle sort_Slice EqualFold fuel force
                       accountName roleName w)
            = outcome (handleAccountRoleSelection handle sort_Slice EqualFold
                         fuel accessToken accounts accountName roleName w'))
  /\ (forall err, cache_error c = Some err ->
        exists u,
          In (Called (Printf ("Warning: failed to save account cache: "
                              ++ err ++ nl)) u)
            (trace (RunLogin handle sort_Slice EqualFold fuel force
                      accountName roleName w))).
Proof.
  unfold RunLogin, tryCachedToken, reauthenticate, saveAccountCache.
  exec_handover.
  all: cbn zeta; cbn [outcome final trace prepend ret panic out_of_fuel app].
  all: rewrite ?app_nil_r.
  all: intros Hin Hc.
  all: locate Hin.
  all: try solve [cbn in Hc; discriminate Hc].
  all: try solve [
    match goal with
    | Hall : Forall (fun c => accounts_request c = true) ?t, H : In ?c ?t |- _ =>
        destruct (accounts_request_plain c
                    (proj1 (Forall_forall _ t) Hall c H)) as (K & _);
        congruence
    | H : In ?c (trace (handleAccountRoleSelection ?h ?s ?E ?f ?t ?a ?an ?rn ?w))
      |- _ =>
        destruct (selection_call_plain c
                    (proj1 (Forall_forall _ _)
                       (run_calls (handleAccountRoleSelection_run
                                     h s E f t a an rn w)) c H)) as (K & _);
        congruence
    end].
  all: cbn in Hc; injection Hc as <-.
  all: split;
    [ let K := fresh "K" in
      intros K; rewrite K in *;
      match goal with
      | H : Nat.eqb (List.length []) 0 = false |- _ => discriminate H
      | H : Nat.ltb 0 (List.length []) = true |- _ => discriminate H
      end
    | split;
      [ eexists; eexists; eexists;
        (split; [split_trace|first [reflexivity | symmetry; eassumption]])
      | let err := fresh "err" in
        let K := fresh "K" in
        intros err K; cbn in K; try discriminate K;
        injection K as <-; eexists; in_open ] ].
Qed.

End LoginPrefix.

Section Forced.

Variable World : Type.
Variable handle : forall X : Type, Event X -> World -> X * World.
Variable sort_Slice : SliceSorter.
Variable EqualFold : string -> string -> bool.

(** X6. With [force] set, a login past the guards authenticates exactly
    once, and before that neither reads the cached token nor lists
    accounts. *)
Lemma forced_login_skips_cached_token (fuel : nat) accountName roleName w w2 :
  passes_guards handle w w2 ->
  count is_Authenticate
    (trace (RunLogin handle sort_Slice EqualFold fuel true accountName
              roleName w)) = 1
  /\ existsb is_GetCachedToken
       (before_Authenticate
          (trace (RunLogin handle sort_Slice EqualFold fuel true accountName
                    roleName w))) = false
  /\ existsb accounts_request
       (before_Authenticate
          (trace (RunLogin handle sort_Slice EqualFold fuel true accountName
                    roleName w))) = false.
Proof.
  intros (url & w1 & Hurl & Hne & Hmanager).
  unfold RunLogin. rewrite bind_call, Hurl. cbn [fst snd].
  apply String.eqb_neq in Hne. rewrite Hne.
  rewrite bind_call, Hmanager. cbn [fst snd negb].
  unfold reauthenticate, saveAccountCache.
  exec_login.
  all: cbn zeta; cbn [outcome final trace prepend ret panic out_of_fuel app
                        fst snd].
  all: repeat match goal with
         | H : Forall (fun c => accounts_request c = true) _ |- _ =>
             apply accounts_requests_quiet in H; destruct H as (? & ? & ?)
         | H : selection_run _ |- _ =>
             let Hcalls := fresh "Hcalls" in
             pose proof (run_calls H) as Hcalls;
             clear H;
             cbn [trace outcome] in Hcalls;
             apply selection_calls_quiet in Hcalls;
             destruct Hcalls as (? & ? & ? & ?)
         end.
  all: cbn [before_Authenticate is_Authenticate existsb is_GetCachedToken
              accounts_request orb].
  all: tally.
  all: repeat split; reflexivity.
Qed.

End Forced.

(** * Further properties of [handleAccountRoleSelection] *)

(** A step of a run that keeps what [ListRoles] returned. *)
Ltac exec_pipeline_head :=
  first
    [ rewrite ?bind_bind;
      match goal with
      | |- context [bind (ListRoles ?h ?f ?t ?i) ?k ?w] =>
          rewrite (bind_run (ListRoles h f t i) k w);
          let H := fresh "Hrequests" in
          pose proof (ListRoles_trace h f t i w) as H;
          let H' := fresh "Hresult" in
          pose proof (ListRoles_loop_result h f t i [] None w) as H';
          change (ListRoles_loop h f t i [] None w)
            with (ListRoles h f t i w) in H';
          let o := fresh "listed" in
          let w' := fresh "w" in
          let tr := fresh "requests" in
          destruct (ListRoles h f t i w) as [o w' tr] eqn:?;
          cbn [outcome final trace] in H, H' |- *;
          destruct o as [[? ?]| |]; [| exfalso; exact H' |];
          cbn [fst snd]; cbn beta
      end
    | exec_head ].

Ltac exec_pipeline := repeat exec_pipeline_head.

Lemma roles_request_plain (c : Entry) :
  roles_request c = true ->
  credentials_request c = None /\ session_request c = None
  /\ profile_written c = false /\ chosen_index c = None.
Proof. destruct c as [X e answer]; destruct e; simpl; intros; try discriminate; auto. Qed.

Ltac by_plain :=
  match goal with
  | Hall : Forall (fun c => roles_request c = true) ?t, Hin : In ?c ?t |- _ =>
      pose proof (roles_request_plain c
                    (proj1 (Forall_forall _ t) Hall c Hin))
        as (? & ? & ? & ?);
      congruence
  end.

Ltac panic_sound :=
  split; [reflexivity|];
  do 2 eexists;
  split; [ends_here|];
  split; [reflexivity|];
  apply Z.eqb_neq; assumption.

Section Pipeline.

Variable World : Type.
Variable handle : forall X : Type, Event X -> World -> X * World.
Variable sort_Slice : SliceSorter.
Variable EqualFold : string -> string -> bool.
Hypothesis sorts : sort_Slice_contract sort_Slice.

Lemma found_account accounts accountName a :
  firstFold EqualFold AccountName accountName (sort_Slice lessAccount accounts)
  = Some a -> In a accounts.
Proof.
  intros H. apply find_some in H. destruct H as [H _].
  now apply (proj1 (@sorted_accounts_In sort_Slice sorts accounts a)).
Qed.

Lemma chosen_account accounts n a :
  nth_error (sort_Slice lessAccount accounts) n = Some a -> In a accounts.
Proof.
  intros H. apply nth_error_In in H.
  now apply (proj1 (@sorted_accounts_In sort_Slice sorts accounts a)).
Qed.

Lemma found_role roles roleName r :
  firstFold EqualFold RoleName roleName (sort_Slice lessRole roles) = Some r ->
  In r roles.
Proof.
  intros H. apply find_some in H. destruct H as [H _].
  now apply (proj1 (@sorted_roles_In sort_Slice sorts roles r)).
Qed.

Lemma chosen_role roles n r :
  nth_error (sort_Slice lessRole roles) n = Some r -> In r roles.
Proof.
  intros H. apply nth_error_In in H.
  now apply (proj1 (@sorted_roles_In sort_Slice sorts roles r)).
Qed.

Ltac candidate :=
  first [ eapply found_account; eassumption
        | eapply chosen_account; eassumption
        | eapply found_role; eassumption
        | eapply chosen_role; eassumption ].

Ltac credentials_sound :=
  split; [reflexivity|];
  split;
  [ eexists; refine (conj _ eq_refl); candidate
  | do 5 eexists; refine (conj _ (conj _ eq_refl));
    [eassumption|candidate] ].

Ltac session_sound :=
  split;
  [ eexists; refine (conj _ (conj eq_refl eq_refl)); candidate
  | eexists; split; [in_open|split; in_open] ].

Lemma handleAccountRoleSelection_sound (fuel : nat) accessToken accounts
    accountName roleName w :
  selection_sound handle fuel accessToken accounts
    (handleAccountRoleSelection handle sort_Slice EqualFold fuel accessToken
       accounts accountName roleName w).
Proof.
  unfold handleAccountRoleSelection, selectAccount, selectRole, materialize,
    GetRoleCredentials, index.
  exec_pipeline.
  all: repeat match goal with u : unit |- _ => destruct u end.
  all: try match goal with
         | H : snd _ = _ |- _ => cbn [snd] in H; discriminate H
         end.
  all: split; cbn [outcome final trace prepend ret panic out_of_fuel app].
  all: try solve [
    intros c token id role Hin Hc; locate Hin; try by_plain;
    cbn in Hc; try discriminate Hc;
    injection Hc as <- <- <-;
    credentials_sound ].
  all: intros c ppid p id name role Hin Hc; locate Hin; try by_plain;
    cbn in Hc; try discriminate Hc;
    injection Hc as <- <- <- <- <-;
    session_sound.
Qed.

End Pipeline.

Section Endings.

Variable World : Type.
Variable handle : forall X : Type, Event X -> World -> X * World.
Variable sort_Slice : SliceSorter.
Variable EqualFold : string -> string -> bool.

Lemma handleAccountRoleSelection_end (fuel : nat) accessToken accounts
    accountName roleName w :
  selection_end
    (handleAccountRoleSelection handle sort_Slice EqualFold fuel accessToken
       accounts accountName roleName w).
Proof.
  unfold handleAccountRoleSelection, selectAccount, selectRole, materialize,
    GetRoleCredentials, index.
  exec_pipeline.
  all: repeat match goal with u : unit |- _ => destruct u end.
  all: try match goal with
         | H : snd _ = _ |- _ => cbn [snd] in H; discriminate H
         end.
  all: split; cbn [outcome final trace prepend ret panic out_of_fuel app].
  all: try solve [
    intros msg K; try discriminate K; injection K as <-;
    panic_sound ].
  all: try solve [
    intros K; try discriminate K;
    do 8 eexists; unfold success_calls; split_trace ].
  all: try solve [intros K; left; reflexivity].
  all: try solve [intros K; right; eexists; reflexivity].
  all: intros K; exfalso; apply existsb_exists in K;
    destruct K as (c & Hin & Hc); locate Hin; try by_plain;
    cbn in Hc; discriminate Hc.
Qed.

End Endings.

(** * Properties beyond the claims: the login workflow *)

(** X4. A run of [RunLogin] either stops before any selection, with an
    error (or in a listing that does not end) and only calls of its own, or
    hands over to [handleAccountRoleSelection] the token it listed the
    accounts with and exactly the accounts listed, at least one, and
    returns what the selection returns. *)
Theorem login_hands_over_listed_accounts
    (World : Type) (handle : forall X : Type, Event X -> World -> X * World)
    (sort_Slice : SliceSorter) (EqualFold : string -> string -> bool)
    (fuel : nat) (force : bool) (accountName roleName : string) (w : World) :
  (Forall (fun c => login_call c = true)
     (trace (RunLogin handle sort_Slice EqualFold fuel force accountName
               roleName w))
   /\ (outcome (RunLogin handle sort_Slice EqualFold fuel force accountName
                  roleName w) = OutOfFuel
       \/ exists err,
           outcome (RunLogin handle sort_Slice EqualFold fuel force accountName
                      roleName w) = Done (Some err)))
  \/ exists before accessToken accounts w' w3 w4 requests,
      trace (RunLogin handle sort_Slice EqualFold fuel force accountName
               roleName w)
      = (before
         ++ trace (handleAccountRoleSelection handle sort_Slice EqualFold fuel
                     accessToken accounts accountName roleName w'))%list
      /\ outcome (RunLogin handle sort_Slice EqualFold fuel force accountName
                    roleName w)
         = outcome (handleAccountRoleSelection handle sort_Slice EqualFold
                      fuel accessToken accounts accountName roleName w')
      /\ ListAccounts handle fuel accessToken w3
         = {| outcome := Done (accounts, None); final := w4;
              trace := requests |}
      /\ accounts <> []
      /\ Forall (fun c => login_call c = true) before.
Proof.
  exact (RunLogin_handover handle sort_Slice EqualFold fuel force accountName
           roleName w).
Qed.

(** X8. [handleAccountRoleSelection] asks credentials only with the access
    token it was given, for the id of one of the candidate accounts, and
    for the name of a role that [ListRoles] returned for that account. *)
Theorem credentials_requested_for_candidates
    (World : Type) (handle : forall X : Type, Event X -> World -> X * World)
    (sort_Slice : SliceSorter) (EqualFold : string -> string -> bool)
    (fuel : nat) (accessToken : string) (accounts : list AccountInfo)
    (accountName roleName : string) (w : World)
    (c : Entry) (token accountId role : string) :
  sort_Slice_contract sort_Slice ->
  In c (trace (handleAccountRoleSelection handle sort_Slice EqualFold fuel
                 accessToken accounts accountName roleName w)) ->
  credentials_request c = Some (token, accountId, role) ->
  token = accessToken
  /\ (exists account, In account accounts /\ AccountId account = accountId)
  /\ (exists roles listed w1 w2 requests,
         ListRoles handle fuel accessToken accountId w1
         = {| outcome := Done (roles, None); final := w2; trace := requests |}
         /\ In listed roles /\ RoleName listed = role).
Proof.
  intros Hsort Hin Hc.
  exact (@sound_credentials _ _ _ _ _ _
           (@handleAccountRoleSelection_sound World handle sort_Slice EqualFold
              Hsort fuel accessToken accounts accountName roleName w)
           c token accountId role Hin Hc).
Qed.

Lemma credentials_requested_for_candidates_witness :
  "cached" = "cached"
  /\ (exists account, In account [Prod; Dev] /\ AccountId account = "111")
  /\ (exists roles listed w1 w2 requests,
         ListRoles play 2 "cached" "111" w1
         = {| outcome := Done (roles, None); final := w2; trace := requests |}
         /\ In listed roles /\ RoleName listed = "Admin").
Proof.
  apply (@credentials_requested_for_candidates Script play insertionSort
           EqualFold_ascii 2 "cached" [Prod; Dev] "dev" "admin" demo
           (Called (client_GetRoleCredentials "cached" "111" "Admin")
              (Ok (Some demo_credentials)))
           "cached" "111" "Admin").
  - exact insertionSort_contract.
  - in_trace.
  - reflexivity.
Defined.

(** X9. When [handleAccountRoleSelection] saves a session, it is for one
    of the candidate accounts (its id and name), under the profile name
    that [WriteProfile] returned for that account and role with the
    credentials obtained for them, and for the parent process id read from
    [os.Getppid]. *)
Theorem session_saved_for_written_profile
    (World : Type) (handle : forall X : Type, Event X -> World -> X * World)
    (sort_Slice : SliceSorter) (EqualFold : string -> string -> bool)
    (fuel : nat) (accessToken : string) (accounts : list AccountInfo)
    (accountName roleName : string) (w : World)
    (c : Entry) (ppid : Z) (profileName accountId name role : string) :
  sort_Slice_contract sort_Slice ->
  In c (trace (handleAccountRoleSelection handle sort_Slice EqualFold fuel
                 accessToken accounts accountName roleName w)) ->
  session_request c = Some (ppid, profileName, accountId, name, role) ->
  (exists account,
      In account accounts /\ AccountId account = accountId
      /\ AccountName account = name)
  /\ exists creds,
      In (Called (client_GetRoleCredentials accessToken accountId role)
            (Ok creds))
        (trace (handleAccountRoleSelection handle sort_Slice EqualFold fuel
                  accessToken accounts accountName roleName w))
      /\ In (Called (WriteProfile name accountId role creds) (Ok profileName))
           (trace (handleAccountRoleSelection handle sort_Slice EqualFold fuel
                     accessToken accounts accountName roleName w))
      /\ In (Called Getppid ppid)
           (trace (handleAccountRoleSelection handle sort_Slice EqualFold fuel
                     accessToken accounts accountName roleName w)).
Proof.
  intros Hsort Hin Hc.
  exact (@sound_session _ _ _ _ _ _
           (@handleAccountRoleSelection_sound World handle sort_Slice EqualFold
              Hsort fuel accessToken accounts accountName roleName w)
           c ppid profileName accountId name role Hin Hc).
Qed.

Lemma session_saved_for_written_profile_witness :
  (exists account,
      In account [Prod; Dev] /\ AccountId account = "111"
      /\ AccountName account = "Dev")
  /\ exists creds,
      In (Called (client_GetRoleCredentials "cached" "111" "Admin") (Ok creds))
        (trace (handleAccountRoleSelection play insertionSort EqualFold_ascii
                  2 "cached" [Prod; Dev] "dev" "admin" demo))
      /\ In (Called (WriteProfile "Dev" "111" "Admin" creds) (Ok "Dev-Admin"))
           (trace (handleAccountRoleSelection play insertionSort
                     EqualFold_ascii 2 "cached" [Prod; Dev] "dev" "admin"
                     demo))
      /\ In (Called Getppid 500%Z)
           (trace (handleAccountRoleSelection play insertionSort
                     EqualFold_ascii 2 "cached" [Prod; Dev] "dev" "admin"
                     demo)).
Proof.
  apply (@session_saved_for_written_profile Script play insertionSort
           EqualFold_ascii 2 "cached" [Prod; Dev] "dev" "admin" demo
           (Called (SaveSession 500 "Dev-Admin" "111" "Dev" "Admin") None)
           500%Z "Dev-Admin" "111" "Dev" "Admin").
  - exact insertionSort_contract.
  - in_trace.
  - reflexivity.
Defined.

Lemma login_call_plain (c : Entry) :
  login_call c = true -> profile_written c = false /\ chosen_index c = None.
Proof. destruct c as [X e answer]; destruct e; simpl; intros; try discriminate; auto. Qed.

Section TwoLevels.

Variable World : Type.
Variable handle : forall X : Type, Event X -> World -> X * World.
Variable sort_Slice : SliceSorter.
Variable EqualFold : string -> string -> bool.

(** What holds at the end of every run of [handleAccountRoleSelection]
    holds at the end of every run of [RunLogin]. *)
Lemma RunLogin_end (fuel : nat) (force : bool) accountName roleName w :
  selection_end
    (RunLogin handle sort_Slice EqualFold fuel force accountName roleName w).
Proof.
  destruct (RunLogin_handover handle sort_Slice EqualFold fuel force
              accountName roleName w)
    as [[Hall Hout]
       |(before & accessToken & accounts & w' & w3 & w4 & requests
         & Htrace & Hout & _ & _ & Hall)].
  - split.
    + intros K. destruct Hout as [Hout|[err Hout]]; congruence.
    + intros K. apply existsb_exists in K. destruct K as (c & Hin & Hc).
      destruct (login_call_plain c (proj1 (Forall_forall _ _) Hall c Hin))
        as [Hno _].
      congruence.
    + intros msg K. destruct Hout as [Hout|[err Hout]]; congruence.
  - pose proof (handleAccountRoleSelection_end handle sort_Slice EqualFold
                  fuel accessToken accounts accountName roleName w') as Hend.
    split; rewrite Hout, Htrace.
    + intros K.
      destruct (end_success Hend K)
        as (b & ppid & p & id & name & role & swept & region & ->).
      exists (before ++ b)%list, ppid, p, id, name, role, swept, region.
      now rewrite app_assoc.
    + intros K. apply (end_profile Hend).
      rewrite existsb_app in K. apply orb_true_iff in K.
      destruct K as [K|K]; [|exact K].
      apply existsb_exists in K. destruct K as (c & Hin & Hc).
      destruct (login_call_plain c (proj1 (Forall_forall _ _) Hall c Hin))
        as [Hno _].
      congruence.
    + intros msg K.
      destruct (end_panic Hend K) as (Hmsg & c & i & Hlast & Hc & Hi).
      split; [exact Hmsg|]. exists c, i.
      split; [now apply ends_with_app|]. now split.
Qed.

End TwoLevels.



(** X11. A profile is written only at the end of the workflow: in a run
    where [WriteProfile] succeeded, the only way left to fail is the
    session write; any other error, a panic or a listing that does not end
    leaves no profile behind. For [handleAccountRoleSelection] and for
    [RunLogin]. *)
Theorem profile_written_then_only_session_can_fail
    (World : Type) (handle : forall X : Type, Event X -> World -> X * World)
    (sort_Slice : SliceSorter) (EqualFold : string -> string -> bool)
    (fuel : nat) (force : bool) (accessToken : string)
    (accounts : list AccountInfo) (accountName roleName : string) (w : World)
    (r : Run World (option error)) :
  r = handleAccountRoleSelection handle sort_Slice EqualFold fuel accessToken
        accounts accountName roleName w
  \/ r = RunLogin handle sort_Slice EqualFold fuel force accountName
           roleName w ->
  existsb profile_written (trace r) = true ->
  outcome r = Done None
  \/ exists err, outcome r = Done (Some ("error saving session: " ++ err)).
Proof.
  intros [->| ->] Hwritten.
  - exact (end_profile
             (handleAccountRoleSelection_end handle sort_Slice EqualFold fuel
                accessToken accounts accountName roleName w) Hwritten).
  - exact (end_profile
             (RunLogin_end handle sort_Slice EqualFold fuel force accountName
                roleName w) Hwritten).
Qed.

Lemma profile_written_then_only_session_can_fail_witness :
  outcome (RunLogin play insertionSort EqualFold_ascii 2 false "dev" "admin"
             (with_session demo (Some "disk full") None)) = Done None
  \/ exists err,
      outcome (RunLogin play insertionSort EqualFold_ascii 2 false "dev"
                 "admin" (with_session demo (Some "disk full") None))
      = Done (Some ("error saving session: " ++ err)).
Proof.
  apply (@profile_written_then_only_session_can_fail Script play insertionSort
           EqualFold_ascii 2 false "cached" [Prod; Dev] "dev" "admin"
           (with_session demo (Some "disk full") None)
           (RunLogin play insertionSort EqualFold_ascii 2 false "dev" "admin"
              (with_session demo (Some "disk full") None))).
  - right. reflexivity.
  - vm_compute. reflexivity.
Defined.



Ltac to_props :=
  repeat match goal with
    | H : (_ <? _)%Z = true |- _ => apply Z.ltb_lt in H
    | H : (_ <? _)%Z = false |- _ => apply Z.ltb_ge in H
    | H : (_ =? _)%Z = true |- _ => apply Z.eqb_eq in H
    | H : (_ =? _)%Z = false |- _ => apply Z.eqb_neq in H
    | H : nth_error _ _ = None |- _ => apply nth_error_None in H
    | H : nth_error ?l ?n = Some _ |- _ =>
        assert (n < List.length l)
          by (apply nth_error_Some; rewrite H; discriminate);
        clear H
    end.

Section OutOfRange.

Variable World : Type.
Variable handle : forall X : Type, Event X -> World -> X * World.
Variable sort_Slice : SliceSorter.
Variable EqualFold : string -> string -> bool.
Hypothesis sorts : sort_Slice_contract sort_Slice.

Lemma sorted_accounts_length (accounts : list AccountInfo) :
  List.length (sort_Slice lessAccount accounts) = List.length accounts.
Proof.
  pose proof sorts as Hsorts.
  destruct (Hsorts _ lessAccount accounts lessAccount_order) as [Hperm _].
  symmetry. now apply Permutation_length.
Qed.

Lemma sorted_roles_length (roles : list RoleInfo) :
  List.length (sort_Slice lessRole roles) = List.length roles.
Proof.
  pose proof sorts as Hsorts.
  destruct (Hsorts _ lessRole roles lessRole_order) as [Hperm _].
  symmetry. now apply Permutation_length.
Qed.

Lemma selectAccount_index accounts accountName w c i :
  In c (trace (selectAccount handle sort_Slice EqualFold accounts accountName w))
  -> chosen_index c = Some i -> i <> (-1)%Z ->
  (outcome (selectAccount handle sort_Slice EqualFold accounts accountName w)
   = Panicked "index out of range"
   <-> (i < 0 \/ Z.of_nat (List.length accounts) <= i)%Z).
Proof.
  pose proof (sorted_accounts_length accounts) as Hlen.
  unfold selectAccount, index.
  exec.
  all: cbn [outcome final trace prepend ret panic out_of_fuel app].
  all: intros Hin Hc Hne; locate Hin; cbn in Hc; try discriminate Hc;
    injection Hc as <-; to_props; try contradiction.
  all: split; intros K; try discriminate K; try reflexivity; lia.
Qed.

Lemma selectRole_index selectedAccount roles roleName w c i :
  In c (trace (selectRole handle sort_Slice EqualFold selectedAccount roles
                 roleName w))
  -> chosen_index c = Some i -> i <> (-1)%Z ->
  (outcome (selectRole handle sort_Slice EqualFold selectedAccount roles
              roleName w)
   = Panicked "index out of range"
   <-> (i < 0 \/ Z.of_nat (List.length roles) <= i)%Z).
Proof.
  pose proof (sorted_roles_length roles) as Hlen.
  unfold selectRole, index.
  exec.
  all: cbn [outcome final trace prepend ret panic out_of_fuel app].
  all: intros Hin Hc Hne; locate Hin; cbn in Hc; try discriminate Hc;
    injection Hc as <-; to_props; try contradiction.
  all: split; intros K; try discriminate K; try reflexivity; lia.
Qed.

End OutOfRange.

(** X13. The index the chooser answers is used unchecked: in account
    selection (and in role selection alike) an answer other than [-1]
    makes the run panic exactly when it is negative or not below the
    number of candidates; in particular every such answer panics when
    there is no candidate. *)
Theorem chooser_index_out_of_range_panics
    (World : Type) (handle : forall X : Type, Event X -> World -> X * World)
    (sort_Slice : SliceSorter) (EqualFold : string -> string -> bool)
    (accounts : list AccountInfo) (accountName : string)
    (selectedAccount : AccountInfo) (roles : list RoleInfo) (roleName : string)
    (w w' : World) (c c' : Entry) (i i' : Z) :
  sort_Slice_contract sort_Slice ->
  In c (trace (selectAccount handle sort_Slice EqualFold accounts accountName w))
  -> chosen_index c = Some i -> i <> (-1)%Z ->
  In c' (trace (selectRole handle sort_Slice EqualFold selectedAccount roles
                  roleName w'))
  -> chosen_index c' = Some i' -> i' <> (-1)%Z ->
  (outcome (selectAccount handle sort_Slice EqualFold accounts accountName w)
   = Panicked "index out of range"
   <-> (i < 0 \/ Z.of_nat (List.length accounts) <= i)%Z)
  /\ (outcome (selectRole handle sort_Slice EqualFold selectedAccount roles
                 roleName w')
      = Panicked "index out of range"
      <-> (i' < 0 \/ Z.of_nat (List.length roles) <= i')%Z).
Proof.
  intros Hsort Hin Hc Hne Hin' Hc' Hne'. split.
  - exact (@selectAccount_index World handle sort_Slice EqualFold Hsort
             accounts accountName w c i Hin Hc Hne).
  - exact (@selectRole_index World handle sort_Slice EqualFold Hsort
             selectedAccount roles roleName w' c' i' Hin' Hc' Hne').
Qed.

Lemma chooser_index_out_of_range_panics_witness :
  (outcome (selectAccount play insertionSort EqualFold_ascii [] ""
              (with_choices demo [Ok 0%Z]))
   = Panicked "index out of range"
   <-> (0 < 0 \/ Z.of_nat (List.length (@nil AccountInfo)) <= 0)%Z)
  /\ (outcome (selectRole play insertionSort EqualFold_ascii Dev
                 [ReadOnly; Admin] "" (with_choices demo [Ok 1%Z]))
      = Panicked "index out of range"
      <-> (1 < 0 \/ Z.of_nat (List.length [ReadOnly; Admin]) <= 1)%Z).
Proof.
  apply (@chooser_index_out_of_range_panics Script play insertionSort
           EqualFold_ascii [] "" Dev [ReadOnly; Admin] ""
           (with_choices demo [Ok 0%Z]) (with_choices demo [Ok 1%Z])
           (Called (RunSelector "Select AWS Account:" []) (Ok 0%Z))
           (Called (RunSelector "Select role for Dev:" ["Admin"; "ReadOnly"])
              (Ok 1%Z))
           0%Z 1%Z).
  - exact insertionSort_contract.
  - in_trace.
  - reflexivity.
  - discriminate.
  - in_trace.
  - reflexivity.
  - discriminate.
Defined.

(** * Witnesses for the properties of [RunLogin] *)

Lemma login_guards_come_first_witness :
  exists url rest,
    url <> ""
    /\ trace (RunLogin play insertionSort EqualFold_ascii 2 false "dev" "admin"
                demo)
       = Called (viper_GetString "sso.start_url") url
         :: Called NewCredentialsManager (Ok tt) :: rest.
Proof.
  apply (@login_guards_come_first Script play insertionSort EqualFold_ascii 2 false
           "dev" "admin" demo (Called GetCachedToken (Ok "cached"))).
  - in_trace.
  - reflexivity.
Defined.

Lemma forced_login_skips_cached_token_witness :
  count is_Authenticate
    (trace (RunLogin play insertionSort EqualFold_ascii 2 true "dev" "admin"
              (with_tokens demo [Ok "fresh"] [None]))) = 1
  /\ existsb is_GetCachedToken
       (before_Authenticate
          (trace (RunLogin play insertionSort EqualFold_ascii 2 true "dev"
                    "admin" (with_tokens demo [Ok "fresh"] [None])))) = false
  /\ existsb accounts_request
       (before_Authenticate
          (trace (RunLogin play insertionSort EqualFold_ascii 2 true "dev"
                    "admin" (with_tokens demo [Ok "fresh"] [None])))) = false.
Proof.
  apply (@forced_login_skips_cached_token Script play insertionSort EqualFold_ascii 2 "dev"
           "admin" (with_tokens demo [Ok "fresh"] [None])
           (with_tokens demo [Ok "fresh"] [None])).
  apply demo_passes_guards; [discriminate|reflexivity].
Defined.

Lemma cached_accounts_are_handed_over_witness :
  [Prod; Dev] <> []
  /\ (exists before accessToken w',
         trace (RunLogin play insertionSort EqualFold_ascii 2 false "dev"
                  "admin" (with_cache demo (Some "read-only file system")))
         = (before
            ++ trace (handleAccountRoleSelection play insertionSort
                        EqualFold_ascii 2 accessToken [Prod; Dev] "dev"
                        "admin" w'))%list
         /\ outcome (RunLogin play insertionSort EqualFold_ascii 2 false "dev"
                       "admin" (with_cache demo (Some "read-only file system")))
            = outcome (handleAccountRoleSelection play insertionSort
                         EqualFold_ascii 2 accessToken [Prod; Dev] "dev"
                         "admin" w'))
  /\ (forall err,
        cache_error (Called (SaveAccountCache [Prod; Dev])
                       (Some "read-only file system")) = Some err ->
        exists u,
          In (Called (Printf ("Warning: failed to save account cache: "
                              ++ err ++ nl)) u)
            (trace (RunLogin play insertionSort EqualFold_ascii 2 false "dev"
                      "admin"
                      (with_cache demo (Some "read-only file system"))))).
Proof.
  apply (@cached_accounts_are_handed_over Script play insertionSort EqualFold_ascii 2 false
           "dev" "admin" (with_cache demo (Some "read-only file system"))
           (Called (SaveAccountCache [Prod; Dev])
              (Some "read-only file system"))
           [Prod; Dev]).
  - in_trace.
  - reflexivity.
Defined.

(** ** The commands of package [cmd] *)

Section CommandSteps.

Variable World : Type.
Variable handle : forall X : Type, CmdEvent X -> World -> X * World.

Lemma cmd_bind_bind (A B D : Type) (m : C World A) (k1 : A -> C World B)
    (k2 : B -> C World D) (w : World) :
  cmd_bind (cmd_bind m k1) k2 w
  = cmd_bind m (fun a => cmd_bind (k1 a) k2) w.
Proof.
  unfold cmd_bind. destruct (m w) as [[a|code] w1 t1]; cbn; try reflexivity.
  destruct (k1 a w1) as [[b|code] w2 t2]; cbn; try reflexivity.
  unfold cmd_prepend; cbn. now rewrite app_assoc.
Qed.

Lemma cmd_bind_call (X B : Type) (e : CmdEvent X) (k : X -> C World B)
    (w : World) :
  cmd_bind (cmd_call handle e) k w
  = cmd_prepend [CmdCalled e (fst (handle e w))]
      (k (fst (handle e w)) (snd (handle e w))).
Proof. unfold cmd_bind, cmd_call. now destruct (handle e w). Qed.

Lemma cmd_run_call (X : Type) (e : CmdEvent X) (w : World) :
  cmd_call handle e w
  = {| cmd_outcome := Returned (fst (handle e w));
       cmd_final := snd (handle e w);
       cmd_trace := [CmdCalled e (fst (handle e w))] |}.
Proof. unfold cmd_call. now destruct (handle e w). Qed.

Lemma cmd_bind_ret (A B : Type) (a : A) (k : A -> C World B) (w : World) :
  cmd_bind (cmd_ret a) k w = cmd_prepend [] (k a w).
Proof. reflexivity. Qed.

Lemma cmd_bind_exit (A B : Type) (code : Z) (k : A -> C World B)
    (w : World) :
  cmd_bind (os_Exit code) k w
  = {| cmd_outcome := Exited code; cmd_final := w; cmd_trace := [] |}.
Proof. reflexivity. Qed.

End CommandSteps.

(** One step of a command: a call is answered, a returned value passed on,
    an exit taken or a test decided. *)
Ltac cmd_exec_head :=
  rewrite ?cmd_bind_bind;
  match goal with
  | |- context [cmd_bind (cmd_call ?h ?e) ?k ?w] =>
      rewrite (cmd_bind_call h e k w);
      let a := fresh "answer" in
      let w' := fresh "w" in
      destruct (h _ e w) as [a w'] eqn:?;
      cbn [fst snd]; cbn beta
  | |- context [cmd_bind (cmd_ret ?a) ?k ?w] =>
      rewrite (cmd_bind_ret a k w); cbn beta iota; cbn [andb negb]
  | |- context [cmd_bind (@os_Exit _ ?A ?code) ?k ?w] =>
      rewrite (@cmd_bind_exit _ A _ code k w)
  | |- context [if negb ?b then _ else _] => destruct b; cbn [negb]
  | |- context [cmd_bind (if ?b then _ else _) _ _] => destruct b eqn:?
  | |- context [cmd_bind (match ?x with _ => _ end) _ _] => destruct x eqn:?
  | |- context [(if ?b then _ else _) ?w] =>
      lazymatch type of w with _ => destruct b eqn:? end
  | |- context [(match ?x with _ => _ end) ?w] => destruct x eqn:?
  end.

Ltac cmd_exec :=
  unfold Command_Run, runSecretsShowCommand, runEC2Connect, runEC2RDP,
    runRDSConnect, runOpenSearchConnect, createEC2Manager, fail;
  cbn [andb negb];
  repeat cmd_exec_head;
  cbn [cmd_prepend cmd_trace cmd_outcome cmd_final cmd_ret os_Exit app];
  repeat match goal with a : unit |- _ => destruct a end.


Lemma cmd_ends_one (c : CmdEntry) : [c] = ([] ++ [c])%list.
Proof. reflexivity. Qed.

Lemma cmd_ends_cons (x c : CmdEntry) (t before : list CmdEntry) :
  t = (before ++ [c])%list -> x :: t = ((x :: before) ++ [c])%list.
Proof. intros ->. reflexivity. Qed.

Ltac cmd_ends := repeat first [apply cmd_ends_one | apply cmd_ends_cons].

(** An entry of a trace that is written out is one of its calls. *)
Ltac cmd_member H :=
  cbn [In] in H;
  repeat (let K := fresh "K" in destruct H as [K|H]; [subst|]);
  [..|contradiction H].

Lemma int32_small (x : Z) :
  (- 2 ^ 31 <= x < 2 ^ 31)%Z -> int32 x = x.
Proof. intros Hx. unfold int32. rewrite Z.mod_small; lia. Qed.

Section CommandFacts.

Variable World : Type.
Variable handle : forall X : Type, CmdEvent X -> World -> X * World.
Variable IsAuthError : error -> bool.

(** X14. In each of the five commands the account switch is called exactly
    when the switch-account flag is set and the first call created the
    manager. *)
Theorem account_switch_iff_asked_and_signed_in (c : Command) (switch : bool)
    (w : World) :
  existsb is_switch (cmd_trace (Command_Run handle IsAuthError c switch w))
  = switch
    && started_with_manager
         (cmd_trace (Command_Run handle IsAuthError c switch w)).
Proof. destruct c, switch; cmd_exec; reflexivity. Qed.

(** X15. In each of the five commands the operator is prompted to
    re-authenticate exactly when the first creation of the manager failed
    with an error that [IsAuthError] accepts. *)
Theorem reauth_prompt_iff_session_missing (c : Command) (switch : bool)
    (w : World) :
  existsb is_prompt (cmd_trace (Command_Run handle IsAuthError c switch w))
  = match first_error
            (cmd_trace (Command_Run handle IsAuthError c switch w)) with
    | Some err => IsAuthError err
    | None => false
    end.
Proof.
  destruct c, switch; cmd_exec; cbn; solve [reflexivity | congruence].
Qed.

(** X16. No run of the five commands both prompts for a re-authentication
    and switches account: after a re-authentication the switch is skipped. *)
Theorem reauth_skips_account_switch (c : Command) (switch : bool)
    (w : World) :
  existsb is_prompt (cmd_trace (Command_Run handle IsAuthError c switch w))
  && existsb is_switch
       (cmd_trace (Command_Run handle IsAuthError c switch w))
  = false.
Proof. destruct c, switch; cmd_exec; reflexivity. Qed.

(** X17. A command returns only when its operation was its last call and
    returned no error, and then it has printed nothing; in every other case
    it exits with code 1, and its last call prints the only message. *)
Theorem command_returns_or_reports (c : Command) (switch : bool) (w : World) :
  let r := Command_Run handle IsAuthError c switch w in
  match cmd_outcome r with
  | Returned _ =>
      cmd_count is_print (cmd_trace r) = 0
      /\ exists last manager,
           cmd_ends_with (cmd_trace r) last
           /\ operation last = Some (manager, None)
  | Exited code =>
      code = 1%Z
      /\ cmd_count is_print (cmd_trace r) = 1
      /\ exists text,
           cmd_ends_with (cmd_trace r) (CmdCalled (cmd_Printf text) tt)
  end.
Proof.
  cbv zeta. destruct c, switch; cmd_exec.
  all: first
    [ split; [reflexivity|]; do 2 eexists;
      split; [eexists; cmd_ends | reflexivity]
    | split; [reflexivity|]; split; [reflexivity|];
      eexists; eexists; cmd_ends ].
Qed.

(** X18. The operation of a command runs on the manager of the last
    successful creation: the one made after a re-authentication or an
    account switch when there was one. *)
Theorem operation_on_latest_manager (c : Command) (switch : bool) (w : World)
    (call : CmdEntry) (manager : Manager) (failed : option error) :
  In call (cmd_trace (Command_Run handle IsAuthError c switch w)) ->
  operation call = Some (manager, failed) ->
  last_created (cmd_trace (Command_Run handle IsAuthError c switch w))
  = Some manager.
Proof.
  destruct c, switch; cmd_exec; intros Hin Hop; cmd_member Hin;
    cbn in Hop; try discriminate Hop;
    inversion Hop; subst; reflexivity.
Qed.

(** X19. A command creates its manager once at the start and once more
    after each completed re-authentication and each account switch that
    returned no error, never more than twice in all. *)
Theorem manager_created_after_each_login (c : Command) (switch : bool)
    (w : World) :
  let t := cmd_trace (Command_Run handle IsAuthError c switch w) in
  cmd_count is_create t
  = 1 + cmd_count reauth_accepted t + cmd_count switch_done t
  /\ cmd_count is_create t <= 2.
Proof.
  cbv zeta. destruct c, switch; cmd_exec; cbn; split; solve [reflexivity | lia].
Qed.

(** X20. When the prompt for a re-authentication is refused or fails, the
    command exits with code 1 without creating a manager again, switching
    account or running its operation. *)
Theorem refused_reauth_stops_command (c : Command) (switch : bool) (w : World)
    (call : CmdEntry) :
  let r := Command_Run handle IsAuthError c switch w in
  In call (cmd_trace r) ->
  reauth_refused call = true ->
  cmd_outcome r = Exited 1
  /\ cmd_count is_create (cmd_trace r) = 1
  /\ existsb is_switch (cmd_trace r) = false
  /\ existsb is_operation (cmd_trace r) = false.
Proof.
  cbv zeta. destruct c, switch; cmd_exec; intros Hin Hno; cmd_member Hin;
    cbn in Hno; try discriminate Hno;
    repeat split; reflexivity.
Qed.

(** X21. [runRDSConnect] and [runOpenSearchConnect] give their operation
    the local-port flag converted to [int32]: the flag itself when it fits
    in 32 bits. *)
Theorem local_port_converted_to_int32 (name : string) (localPort : Z)
    (switch : bool) (w : World) (call : CmdEntry) (port : Z) :
  In call (cmd_trace (Command_Run handle IsAuthError
                        (rdsConnectCmd name localPort) switch w))
  \/ In call (cmd_trace (Command_Run handle IsAuthError
                           (opensearchConnectCmd name localPort) switch w)) ->
  port_given call = Some port ->
  port = int32 localPort
  /\ ((- 2 ^ 31 <= localPort < 2 ^ 31)%Z -> port = localPort).
Proof.
  assert (Hint : port = int32 localPort ->
                 port = int32 localPort
                 /\ ((- 2 ^ 31 <= localPort < 2 ^ 31)%Z -> port = localPort)).
  { intros ->. split; [reflexivity|]. apply int32_small. }
  intros [Hin|Hin] Hport; apply Hint; clear Hint; revert Hin Hport;
    destruct switch; cmd_exec; intros Hin Hport; cmd_member Hin;
    cbn in Hport; try discriminate Hport;
    inversion Hport; reflexivity.
Qed.

End CommandFacts.

Ltac cmd_in_trace := vm_compute; repeat first [left; reflexivity | right].

Lemma operation_on_latest_manager_witness :
  last_created
    (cmd_trace (Command_Run cmd_play session_missing ec2ConnectCmd true
                  reauthenticated))
  = Some 2.
Proof.
  apply (@operation_on_latest_manager _ cmd_play session_missing
           ec2ConnectCmd true reauthenticated
           (CmdCalled (EC2_RunConnect 2 "i-0abc") None) 2 None).
  - cmd_in_trace.
  - reflexivity.
Defined.

Lemma refused_reauth_stops_command_witness :
  let r := Command_Run cmd_play session_missing
             (rdsConnectCmd "orders" 5432) true declined in
  cmd_outcome r = Exited 1
  /\ cmd_count is_create (cmd_trace r) = 1
  /\ existsb is_switch (cmd_trace r) = false
  /\ existsb is_operation (cmd_trace r) = false.
Proof.
  apply (@refused_reauth_stops_command _ cmd_play session_missing
           (rdsConnectCmd "orders" 5432) true declined
           (CmdCalled PromptForReauth (false, None))).
  - cmd_in_trace.
  - reflexivity.
Defined.

Lemma local_port_converted_to_int32_witness :
  5432%Z = int32 5432
  /\ ((- 2 ^ 31 <= 5432 < 2 ^ 31)%Z -> 5432%Z = 5432%Z).
Proof.
  apply (@local_port_converted_to_int32 _ cmd_play session_missing
           "orders" 5432 false signed_in
           (CmdCalled (RDS_RunConnect 1 "orders" 5432) None) 5432).
  - left. cmd_in_trace.
  - reflexivity.
Defined.
